(** * PolitikCred import pipeline: a shallow embedding and its properties

    The development follows [import-politicians/populate-politics.py]:
    the class [PolitikCredDataFetcher] with its source adapters
    ([fetch_deputes], [fetch_senateurs], [fetch_ministres_gouvernement_bayrou],
    [fetch_maires_principales_villes]), the orientation classifier
    ([_determine_orientation]), the styler ([_assign_visual_elements]), the
    deduplicator ([_clean_and_deduplicate]), the batch persister
    ([insert_politicians_batch]) and the entry point ([populate_database]).

    Python strings are sequences of Unicode code points; dictionaries with a
    fixed set of keys are records whose optional keys are [option] fields;
    the [seen] set of the deduplicator is a [gset]; logging, the HTTP and
    CSV sources and the Supabase client are threaded through an explicit
    world in a small state-and-exception monad. *)

From Stdlib Require Import ZArith NArith List Bool Ascii String Lia.
From stdpp Require Import base list gmap sets.
Import ListNotations.

Local Open Scope N_scope.
Set Warnings "-clear-no-such-hyp".

(** ** Python strings *)

Module PyStr.

(** A [str] is a sequence of code points. *)
Definition codepoint := N.
Definition pystr := list N.

(** String literals are written in UTF-8 and decoded to code points. *)
Fixpoint utf8_decode (bs : list N) (pending : nat) (acc : N) : pystr :=
  match bs with
  | [] => []
  | b :: rest =>
      match pending with
      | O =>
          if b <? 0x80 then b :: utf8_decode rest 0 0
          else if b <? 0xE0 then utf8_decode rest 1 (N.land b 0x1F)
          else if b <? 0xF0 then utf8_decode rest 2 (N.land b 0x0F)
          else utf8_decode rest 3 (N.land b 0x07)
      | S p =>
          let acc' := acc * 64 + N.land b 0x3F in
          match p with
          | O => acc' :: utf8_decode rest 0 0
          | S _ => utf8_decode rest p acc'
          end
      end
  end.

Definition py (s : string) : pystr :=
  utf8_decode (List.map N_of_ascii (list_ascii_of_string s)) 0 0.

Definition eqb (a b : pystr) : bool := bool_decide (a = b).

(** [bool(s)]: a string is truthy when it is not empty. *)
Definition truthy (s : pystr) : bool :=
  match s with [] => false | _ :: _ => true end.

Definition in_range (lo hi c : N) : bool := (lo <=? c) && (c <=? hi).

(** [str.lower], code point by code point, on the Basic Latin, Latin-1
    Supplement and Latin Extended-A blocks (the alphabet of the French
    names and party labels the sources carry).  Code points above U+017F
    are returned unchanged. *)
Definition lower_cp (c : codepoint) : list codepoint :=
  if in_range 0x41 0x5A c then [c + 32]
  else if in_range 0xC0 0xDE c && negb (c =? 0xD7) then [c + 32]
  else if c =? 0x130 then [0x69; 0x307]
  else if (in_range 0x100 0x12F c || in_range 0x132 0x137 c
           || in_range 0x14A 0x177 c) && N.even c then [c + 1]
  else if (in_range 0x139 0x148 c || in_range 0x179 0x17E c)
          && N.odd c then [c + 1]
  else if c =? 0x178 then [0xFF]
  else [c].

Definition lower (s : pystr) : pystr := flat_map lower_cp s.

(** [str.upper] on the same blocks. *)
Definition upper_cp (c : codepoint) : list codepoint :=
  if in_range 0x61 0x7A c then [c - 32]
  else if c =? 0xB5 then [0x39C]
  else if c =? 0xDF then [0x53; 0x53]
  else if in_range 0xE0 0xFE c && negb (c =? 0xF7) then [c - 32]
  else if c =? 0xFF then [0x178]
  else if (in_range 0x100 0x12F c || in_range 0x132 0x137 c
           || in_range 0x14A 0x177 c) && N.odd c then [c - 1]
  else if c =? 0x131 then [0x49]
  else if (in_range 0x139 0x148 c || in_range 0x179 0x17E c)
          && N.even c then [c - 1]
  else if c =? 0x149 then [0x2BC; 0x4E]
  else if c =? 0x17F then [0x53]
  else [c].

Definition upper (s : pystr) : pystr := flat_map upper_cp s.

(** [str.isspace] for one code point: the characters [str.strip()]
    removes. *)
Definition isspace (c : codepoint) : bool :=
  in_range 0x09 0x0D c || in_range 0x1C 0x20 c || (c =? 0x85)
  || (c =? 0xA0) || (c =? 0x1680) || in_range 0x2000 0x200A c
  || in_range 0x2028 0x2029 c || (c =? 0x202F) || (c =? 0x205F)
  || (c =? 0x3000).

Fixpoint lstrip (s : pystr) : pystr :=
  match s with
  | [] => []
  | c :: rest => if isspace c then lstrip rest else s
  end.

Definition rstrip (s : pystr) : pystr := rev (lstrip (rev s)).

(** [s.strip()] *)
Definition strip (s : pystr) : pystr := rstrip (lstrip s).

(** [s.replace(old, new)] for single-character [old] and [new]. *)
Definition replace (old new : codepoint) (s : pystr) : pystr :=
  List.map (fun c => if c =? old then new else c) s.

Fixpoint startswith (s prefix : pystr) : bool :=
  match prefix, s with
  | [], _ => true
  | _ :: _, [] => false
  | p :: prefix', c :: s' => (p =? c) && startswith s' prefix'
  end.

(** [sub in s]: substring test. *)
Fixpoint contains (s sub : pystr) : bool :=
  startswith s sub ||
  match s with
  | [] => false
  | _ :: s' => contains s' sub
  end.

Definition SPACE : codepoint := 0x20.
Definition UNDERSCORE : codepoint := 0x5F.

End PyStr.

Import PyStr.

(** ** The politician dictionary

    Keys the code reads with [.get(key, default)] may be absent and are
    [option] fields ([None]: the key is not in the dictionary); ['position']
    is set by every adapter and indexed without a default.  The bookkeeping
    keys that no function below reads (constituency, birth_date, gender,
    bio, is_active, verification_status, timestamps, vote counters) are
    left out. *)

Record Politician := mkPolitician {
  name : option pystr;
  first_name : option pystr;
  last_name : option pystr;
  party : option pystr;
  position : pystr;
  political_orientation : option pystr;
  credibility_score : option Z;
  avatar_url : option (option pystr);
  card_color : option pystr;
  cartoon_expression : option pystr;
  credibility_badge : option pystr;
  credibility_label : option pystr;
  highlight : option bool;
  crown : option pystr
}.

#[global] Instance Politician_eq_dec : EqDecision Politician.
Proof. solve_decision. Defined.

(** [d.get(key, default)] *)
Definition get {A} (field : option A) (default : A) : A :=
  match field with Some v => v | None => default end.

(** [dict.get(key, default)] on a literal dictionary, kept as the ordered
    list of its items. *)
Fixpoint dict_get {V} (items : list (pystr * V)) (key : pystr) (default : V) : V :=
  match items with
  | [] => default
  | (k, v) :: rest => if PyStr.eqb k key then v else dict_get rest key default
  end.

(** ** Orientation classifier *)

Definition orientations : list (pystr * pystr) :=
  [ (py "la france insoumise", py "left");
    (py "parti socialiste", py "center-left");
    (py "europe ecologie", py "center-left");
    (py "renaissance", py "center");
    (py "modem", py "center");
    (py "agir", py "center");
    (py "les republicains", py "center-right");
    (py "lr", py "center-right");
    (py "rassemblement national", py "right");
    (py "reconquete", py "right") ].

(** [for key, orientation in table.items(): if key in s: return orientation] *)
Fixpoint first_match {V} (table : list (pystr * V)) (s : pystr) : option V :=
  match table with
  | [] => None
  | (key, v) :: rest => if contains s key then Some v else first_match rest s
  end.

Definition _determine_orientation (party : pystr) : pystr :=
  if negb (truthy party) then py "center"
  else
    let party_lower := lower party in
    match first_match orientations party_lower with
    | Some orientation => orientation
    | None => py "center"
    end.

(** ** Credibility styler *)

Definition avatar_mapping : list (pystr * option pystr) :=
  [ (py "élisabeth borne", Some (py "/images/borne.png"));
    (py "sébastien lecornu", Some (py "/images/lecornu.png"));
    (py "éric lombard", Some (py "/images/lombart.png"));
    (py "marine le pen", Some (py "/images/lepen.jpeg")) ].

Definition orientation_colors : list (pystr * pystr) :=
  [ (py "left", py "#DC2626");
    (py "center-left", py "#059669");
    (py "center", py "#1E3A8A");
    (py "center-right", py "#D97706");
    (py "right", py "#7C2D12") ].

Definition role_styles : list (pystr * (bool * pystr)) :=
  [ (py "Premier ministre", (true, py "👑"));
    (py "Ministre d'État", (true, py "⭐"));
    (py "Député", (false, py "🗳️"));
    (py "Sénateur", (false, py "🏛️"));
    (py "Maire", (false, py "🏙️")) ].

(** The [for role, style in role_styles.items(): ... break / else:] loop. *)
Fixpoint role_style (styles : list (pystr * (bool * pystr))) (position : pystr)
  : bool * pystr :=
  match styles with
  | [] => (false, py "👤")
  | (role, style) :: rest =>
      if contains (lower position) (lower role) then style
      else role_style rest position
  end.

(** The three branches on the score: expression, badge, label. *)
Definition credibility_style (credibility : Z) : pystr * pystr * pystr :=
  if (credibility >=? 80)%Z then
    (py "confident", py "🏆", py "Il assure lauiss !")
  else if (credibility >=? 60)%Z then
    (py "neutral", py "⚖️", py "Moyen lauiss...")
  else
    (py "skeptical", py "⚠️", py "Louche lauiss !").

Definition _assign_visual_elements (politician : Politician) : Politician :=
  let full_name :=
    strip (lower (get (first_name politician) [] ++ [SPACE]
                  ++ get (last_name politician) [])) in
  let avatar := dict_get avatar_mapping full_name None in
  let color :=
    dict_get orientation_colors
      (get (political_orientation politician) (py "center")) (py "#1E3A8A") in
  let credibility := get (credibility_score politician) 100%Z in
  let '(expression, badge, label) := credibility_style credibility in
  let '(hl, cr) := role_style role_styles (position politician) in
  {| name := name politician;
     first_name := first_name politician;
     last_name := last_name politician;
     party := party politician;
     position := position politician;
     political_orientation := political_orientation politician;
     credibility_score := credibility_score politician;
     avatar_url := Some avatar;
     card_color := Some color;
     cartoon_expression := Some expression;
     credibility_badge := Some badge;
     credibility_label := Some label;
     highlight := Some hl;
     crown := Some cr |}.

(** ** Deduplicator *)

(** The four [politician[k] = politician.get(k, '').strip()] assignments,
    on an entity whose text fields are strings.  On any other value (the
    float NaN of an empty CSV cell, a JSON null) [.strip()] raises
    [AttributeError], and [populate_database] calls the deduplicator
    outside every [try]: such a run is not a run of this model, so the
    statements about the entry point below are about the runs that
    return. *)
Definition clean_fields (politician : Politician) : Politician :=
  {| name := Some (strip (get (name politician) []));
     first_name := Some (strip (get (first_name politician) []));
     last_name := Some (strip (get (last_name politician) []));
     party := Some (strip (get (party politician) []));
     position := position politician;
     political_orientation := political_orientation politician;
     credibility_score := credibility_score politician;
     avatar_url := avatar_url politician;
     card_color := card_color politician;
     cartoon_expression := cartoon_expression politician;
     credibility_badge := credibility_badge politician;
     credibility_label := credibility_label politician;
     highlight := highlight politician;
     crown := crown politician |}.

(** [f"{first_name.lower()}_{last_name.lower()}".replace(' ', '_')] *)
Definition dedup_key (politician : Politician) : pystr :=
  replace SPACE UNDERSCORE
    (lower (get (first_name politician) []) ++ [UNDERSCORE]
     ++ lower (get (last_name politician) [])).

(** The loop of [_clean_and_deduplicate], with its two accumulators. *)
Fixpoint dedup_loop (politicians : list Politician) (seen : gset pystr)
    (cleaned : list Politician) : list Politician :=
  match politicians with
  | [] => cleaned
  | politician :: rest =>
      let politician := clean_fields politician in
      let key := dedup_key politician in
      if negb (bool_decide (key ∈ seen))
         && truthy (get (name politician) [])
         && truthy (position politician)
         && negb (PyStr.eqb key [UNDERSCORE])
      then dedup_loop rest ({[key]} ∪ seen) (cleaned ++ [politician])
      else dedup_loop rest seen cleaned
  end.

Definition _clean_and_deduplicate (politicians : list Politician)
  : list Politician :=
  dedup_loop politicians ∅ [].

(** ** Effects: exceptions, the log, and the outside world *)

Inductive exn :=
  | ValueError            (* missing credentials; [range()] with step 0 *)
  | IndexError            (* [[...][0]] on an empty list *)
  | NoDeputesUrl          (* [raise Exception("Aucune URL de députés ...")] *)
  | External (code : N).  (* raised by requests, pandas or the Supabase client *)

Inductive Result (A : Type) :=
  | Ok (a : A)
  | Raise (e : exn).
Arguments Ok {A} a.
Arguments Raise {A} e.

Inductive Level := INFO | WARNING | ERROR.

(** One constructor per [self.logger.*] call site. *)
Inductive Message :=
  | MsgDeputesStart
  | MsgUrlOk (url : pystr)
  | MsgUrlFailed (e : exn)
  | MsgDeputesCount (n : nat)
  | MsgDeputesFailed (e : exn)
  | MsgSenateursStart
  | MsgSenateursCount (n : nat)
  | MsgSenateursFailed (e : exn)
  | MsgMinistresStart
  | MsgMinistresCount (n : nat)
  | MsgMairesStart
  | MsgMairesCount (n : nat)
  | MsgMairesFailed (e : exn)
  | MsgBatchInserted (batch_no : Z) (n : nat)
  | MsgBatchError (batch_no : Z) (e : exn)
  | MsgRecordError (who : pystr) (e : exn)
  | MsgStart
  | MsgTotalCleaned (n : nat)
  | MsgDone (inserted : Z) (total : nat)
  | MsgNothing.

Definition LogRecord : Type := Level * Message.

(** *** Raw records of the sources *)

Record Organe := mkOrgane {
  codeType : option pystr;
  libelle : option pystr
}.

(** A mandate; ['organes']['organe'] is kept as the list the code iterates
    (a single dictionary is wrapped by the code itself). *)
Record Mandat := mkMandat {
  organe : list Organe
}.

(** One entry of [export.acteurs.acteur]: [etatCivil.prenom],
    [etatCivil.nom] and [mandats.mandat] ([None]: key absent), for a
    document of the expected shape: the names are strings and the mandates
    a list of dictionaries.  (A JSON null name, or a single mandate given
    as a dictionary, is not a value of this type.) *)
Record Acteur := mkActeur {
  prenom : option pystr;
  nom : option pystr;
  mandat : option (list Mandat)
}.

(** The decoded JSON document: a falsy document ([None], [{}], ...) or a
    document whose [export.acteurs.acteur] list (empty when a key on the
    path is absent) is given. *)
Inductive Json :=
  | JFalsy
  | JDocument (acteur : list Acteur).

(** A row of the senators' CSV, its cells being strings ([None]: column
    absent).  The NaN that [pd.read_csv] gives for an empty cell is not a
    value of this type. *)
Record SenatorRow := mkSenatorRow {
  sen_prenom : option pystr;          (* 'Prénom' *)
  sen_nom_usage : option pystr;       (* 'Nom usage' *)
  sen_nom : option pystr;             (* 'Nom' *)
  sen_groupe : option pystr;          (* 'Groupe politique' *)
  sen_fin_mandat_isna : bool          (* pd.isna(row.get('Date de fin de mandat')) *)
}.

(** A row of the mayors' CSV, under the same reading of its cells. *)
Record MayorRow := mkMayorRow {
  may_commune : option pystr;         (* 'Libellé de la commune' *)
  may_prenom : option pystr;          (* 'Prénom' *)
  may_nom : option pystr;             (* 'Nom' *)
  may_nuance : option pystr           (* 'Libellé de la nuance' *)
}.

(** What is handed to [self.supabase.table('politicians').insert(...)]. *)
Inductive Payload :=
  | Bulk (batch : list Politician)
  | Single (politician : Politician).

(** The requests issued to the outside, in order (a history variable). *)
Inductive Event :=
  | EvGet (url : pystr)
  | EvSenatorsCsv
  | EvMayorsCsv
  | EvInsert (payload : Payload) (ok : bool).

(** The collaborators outside the program: each operation may raise and
    may change the outside state [Ext]. *)
Class Outside (Ext : Type) := {
  (** [requests.get(url, ...); raise_for_status(); response.json()] *)
  requests_get_json : pystr -> Ext -> Result Json * Ext;
  (** download, [pd.read_csv] and removal of the temporary file *)
  read_senators_csv : Ext -> Result (list SenatorRow) * Ext;
  read_mayors_csv : Ext -> Result (list MayorRow) * Ext;
  (** [self.supabase.table('politicians').insert(payload).execute()] *)
  insert_execute : Payload -> Ext -> Result unit * Ext;
  (** [create_client(url, key)]: [Some e] when it raises *)
  create_client : pystr -> pystr -> option exn
}.

Record World (Ext : Type) := mkWorld {
  ext : Ext;
  logs : list LogRecord;
  history : list Event
}.
Arguments mkWorld {Ext} _ _ _.
Arguments ext {Ext} _.
Arguments logs {Ext} _.
Arguments history {Ext} _.

Definition M (Ext A : Type) : Type := World Ext -> Result A * World Ext.

Definition ret {Ext A} (a : A) : M Ext A := fun w => (Ok a, w).

Definition bind {Ext A B} (m : M Ext A) (k : A -> M Ext B) : M Ext B :=
  fun w =>
    match m w with
    | (Ok a, w') => k a w'
    | (Raise e, w') => (Raise e, w')
    end.

Definition raise {Ext A} (e : exn) : M Ext A := fun w => (Raise e, w).

(** [try: m except Exception as e: ...] seen from the handler's side: the
    outcome of [m] is returned as a value and nothing propagates. *)
Definition attempt {Ext A} (m : M Ext A) : M Ext (Result A) :=
  fun w => let '(r, w') := m w in (Ok r, w').

Definition lift {Ext A} (r : Result A) : M Ext A := fun w => (r, w).

Declare Scope py_scope.
Delimit Scope py_scope with py.
Notation "x <- m ;; k" := (bind m (fun x => k))
  (at level 100, m at next level, right associativity) : py_scope.
Notation "m ;;; k" := (bind m (fun _ => k))
  (at level 100, right associativity) : py_scope.
Local Open Scope py_scope.

Definition log {Ext} (lvl : Level) (msg : Message) : M Ext unit :=
  fun w => (Ok tt, mkWorld (ext w) (logs w ++ [(lvl, msg)]) (history w)).

Section Primitives.
Context {Ext : Type} `{Outside Ext}.

Definition http_get_json (url : pystr) : M Ext Json :=
  fun w =>
    let '(r, e) := requests_get_json url (ext w) in
    (r, mkWorld e (logs w) (history w ++ [EvGet url])).

Definition senators_csv : M Ext (list SenatorRow) :=
  fun w =>
    let '(r, e) := read_senators_csv (ext w) in
    (r, mkWorld e (logs w) (history w ++ [EvSenatorsCsv])).

Definition mayors_csv : M Ext (list MayorRow) :=
  fun w =>
    let '(r, e) := read_mayors_csv (ext w) in
    (r, mkWorld e (logs w) (history w ++ [EvMayorsCsv])).

Definition supabase_insert (payload : Payload) : M Ext unit :=
  fun w =>
    let '(r, e) := insert_execute payload (ext w) in
    (r, mkWorld e (logs w)
          (history w ++ [EvInsert payload
                           match r with Ok _ => true | Raise _ => false end])).

End Primitives.

(** ** The class [PolitikCredDataFetcher] *)

Record Environ := mkEnviron {
  SUPABASE_URL : option pystr;        (* os.getenv('SUPABASE_URL') *)
  SUPABASE_ANON_KEY : option pystr    (* os.getenv('SUPABASE_ANON_KEY') *)
}.

Record PolitikCredDataFetcher := mkFetcher {
  supabase_url : pystr;
  supabase_key : pystr
}.

(** A dictionary literal with the keys an adapter sets before styling. *)
Definition new_politician (name_ first last party_ position_ orientation : pystr)
    (score : Z) : Politician :=
  {| name := Some name_;
     first_name := Some first;
     last_name := Some last;
     party := Some party_;
     position := position_;
     political_orientation := Some orientation;
     credibility_score := Some score;
     avatar_url := None;
     card_color := None;
     cartoon_expression := None;
     credibility_badge := None;
     credibility_label := None;
     highlight := None;
     crown := None |}.

Definition _extract_party_from_mandate (m : Mandat) : pystr :=
  match List.find (fun o => bool_decide (codeType o = Some (py "GP"))) (organe m) with
  | Some o => get (libelle o) []
  | None => py "Non inscrit"
  end.

(** The body of the loop over [acteur] in [fetch_deputes], as far as the
    keys of [Politician] go: [[...][0]] on the list of mandates, which
    raises on the empty list, and the fields read from [etatCivil] and from
    the first mandate.  The keys ['constituency'] and ['bio'], built from
    [mandat.get('election', {})...], are not kept. *)
Definition deputy_of_acteur (deputy_info : Acteur) : Result Politician :=
  match get (mandat deputy_info) [mkMandat []] with
  | [] => Raise IndexError
  | m :: _ =>
      let first := get (prenom deputy_info) [] in
      let last := get (nom deputy_info) [] in
      Ok (new_politician
            (strip (first ++ [SPACE] ++ last)) first last
            (_extract_party_from_mandate m)
            (py "Député")
            (_determine_orientation (_extract_party_from_mandate m))
            100%Z)
  end.

(** A [for] loop that appends to a list and stops at the first exception. *)
Fixpoint for_each {A B} (f : A -> Result B) (l : list A) : Result (list B) :=
  match l with
  | [] => Ok []
  | a :: rest =>
      match f a with
      | Raise e => Raise e
      | Ok b =>
          match for_each f rest with
          | Raise e => Raise e
          | Ok bs => Ok (b :: bs)
          end
      end
  end.

Definition base_url : pystr :=
  py "https://data.assemblee-nationale.fr/static/openData/repository".

Definition urls_to_try : list pystr :=
  [ base_url ++ py "/17/amo/deputes/AMO30_deputes_actifs_mandats_actifs_organes_divises.json";
    base_url ++ py "/16/amo/deputes/AMO30_deputes_actifs_mandats_actifs_organes_divises.json";
    py "https://www.assemblee-nationale.fr/dyn/opendata/legislature/17/json/acteurs" ].

Definition senator_of_row (row : SenatorRow) : Politician :=
  let first := get (sen_prenom row) [] in
  let usage := get (sen_nom_usage row) [] in
  let last := if truthy usage then usage else get (sen_nom row) [] in
  _assign_visual_elements
    (new_politician
       (strip (first ++ [SPACE] ++ last)) first last
       (get (sen_groupe row) [])
       (py "Sénateur")
       (_determine_orientation (get (sen_groupe row) []))
       80%Z).

Definition ministres : list Politician :=
  [ new_politician (py "François Bayrou") (py "François") (py "Bayrou")
      (py "MoDem")
      (py "Premier ministre, chargé de la Planification écologique et énergétique")
      (py "center") 95%Z;
    new_politician (py "Élisabeth Borne") (py "Élisabeth") (py "Borne")
      (py "Renaissance")
      (py "Ministre d'État, ministre de l'Éducation nationale, de l'Enseignement supérieur et de la Recherche")
      (py "center") 88%Z;
    new_politician (py "Manuel Valls") (py "Manuel") (py "Valls")
      (py "Renaissance")
      (py "Ministre d'État, ministre des Outre-mer")
      (py "center-left") 75%Z;
    new_politician (py "Gérald Darmanin") (py "Gérald") (py "Darmanin")
      (py "Renaissance")
      (py "Ministre d'État, garde des sceaux, ministre de la Justice")
      (py "center-right") 70%Z;
    new_politician (py "Bruno Retailleau") (py "Bruno") (py "Retailleau")
      (py "Les Républicains")
      (py "Ministre d'État, ministre de l'Intérieur")
      (py "center-right") 82%Z;
    new_politician (py "Catherine Vautrin") (py "Catherine") (py "Vautrin")
      (py "Renaissance")
      (py "Ministre du Travail, de la Santé, des Solidarités et des Familles")
      (py "center") 85%Z;
    new_politician (py "Éric Lombard") (py "Éric") (py "Lombard")
      (py "Divers gauche")
      (py "Ministre de l'Économie, des Finances et de la Souveraineté industrielle et numérique")
      (py "center-left") 90%Z;
    new_politician (py "Sébastien Lecornu") (py "Sébastien") (py "Lecornu")
      (py "Renaissance")
      (py "Ministre des Armées")
      (py "center") 87%Z;
    new_politician (py "Rachida Dati") (py "Rachida") (py "Dati")
      (py "Les Républicains")
      (py "Ministre de la Culture")
      (py "center-right") 78%Z ].

Definition grandes_villes : list pystr :=
  List.map py
    [ "PARIS"; "MARSEILLE"; "LYON"; "TOULOUSE"; "NICE"; "NANTES";
      "MONTPELLIER"; "STRASBOURG"; "BORDEAUX"; "LILLE"; "RENNES";
      "REIMS"; "SAINT-ETIENNE"; "TOULON"; "LE HAVRE"; "GRENOBLE";
      "DIJON"; "ANGERS"; "NIMES"; "VILLEURBANNE"; "CLERMONT-FERRAND" ]%string.

Definition mayor_of_row (row : MayorRow) : Politician :=
  let commune := get (may_commune row) [] in
  let first := get (may_prenom row) [] in
  let last := get (may_nom row) [] in
  let nuance := get (may_nuance row) [] in
  _assign_visual_elements
    (new_politician
       (strip (first ++ [SPACE] ++ last)) first last
       (if truthy nuance then nuance else py "Non renseigné")
       (py "Maire de " ++ commune)
       (_determine_orientation nuance)
       70%Z).

(** [range(start, stop, step)] as the list of its values. *)
Definition py_range (start stop step : Z) : Result (list Z) :=
  if (step =? 0)%Z then Raise ValueError
  else if (0 <? step)%Z then
    let n := if (start <? stop)%Z then ((stop - start + step - 1) / step)%Z else 0%Z in
    Ok (List.map (fun k => (start + Z.of_nat k * step)%Z) (seq 0 (Z.to_nat n)))
  else
    let n := if (stop <? start)%Z then ((start - stop - step - 1) / (- step))%Z else 0%Z in
    Ok (List.map (fun k => (start + Z.of_nat k * step)%Z) (seq 0 (Z.to_nat n))).

(** [l[lo:hi]] for [0 <= lo], the only case the loop produces. *)
Definition slice {A} (l : list A) (lo hi : Z) : list A :=
  firstn (Z.to_nat (hi - lo)) (skipn (Z.to_nat lo) l).

Section Methods.
Context {Ext : Type} `{Outside Ext}.

Definition __init__ (environ : Environ) : M Ext PolitikCredDataFetcher :=
  let url := SUPABASE_URL environ in
  let key := SUPABASE_ANON_KEY environ in
  if negb (truthy (get url [])) || negb (truthy (get key [])) then
    raise ValueError
  else
    match create_client (get url []) (get key []) with
    | Some e => raise e
    | None => ret (mkFetcher (get url []) (get key []))
    end.

(** The inner loop of [fetch_deputes]: the first URL that answers wins. *)
Fixpoint try_urls (urls : list pystr) : M Ext (option Json) :=
  match urls with
  | [] => ret None
  | url :: rest =>
      r <- attempt (http_get_json url) ;;
      match r with
      | Ok data => log INFO (MsgUrlOk url) ;;; ret (Some data)
      | Raise e => log WARNING (MsgUrlFailed e) ;;; try_urls rest
      end
  end.

(** The [try] block of [fetch_deputes]. *)
Definition fetch_deputes_try : M Ext (list Politician) :=
  data <- try_urls urls_to_try ;;
  match data with
  | None | Some JFalsy => raise NoDeputesUrl
  | Some (JDocument acteurs) =>
      deputies <- lift (for_each deputy_of_acteur acteurs) ;;
      log INFO (MsgDeputesCount (length deputies)) ;;;
      ret deputies
  end.

Definition fetch_deputes : M Ext (list Politician) :=
  log INFO MsgDeputesStart ;;;
  r <- attempt fetch_deputes_try ;;
  match r with
  | Ok deputies => ret deputies
  | Raise e => log ERROR (MsgDeputesFailed e) ;;; ret []
  end.

(** The [try] block of [fetch_senateurs]. *)
Definition fetch_senateurs_try : M Ext (list Politician) :=
  df <- senators_csv ;;
  let senators :=
    List.map senator_of_row (List.filter sen_fin_mandat_isna df) in
  log INFO (MsgSenateursCount (length senators)) ;;;
  ret senators.

Definition fetch_senateurs : M Ext (list Politician) :=
  log INFO MsgSenateursStart ;;;
  r <- attempt fetch_senateurs_try ;;
  match r with
  | Ok senators => ret senators
  | Raise e => log ERROR (MsgSenateursFailed e) ;;; ret []
  end.

Definition fetch_ministres_gouvernement_bayrou : M Ext (list Politician) :=
  log INFO MsgMinistresStart ;;;
  let styled := List.map _assign_visual_elements ministres in
  log INFO (MsgMinistresCount (length styled)) ;;;
  ret styled.

(** The [try] block of [fetch_maires_principales_villes]. *)
Definition fetch_maires_try : M Ext (list Politician) :=
  df <- mayors_csv ;;
  let mayors :=
    List.map mayor_of_row
      (List.filter
         (fun row =>
            bool_decide (upper (get (may_commune row) []) ∈ grandes_villes))
         df) in
  log INFO (MsgMairesCount (length mayors)) ;;;
  ret mayors.

Definition fetch_maires_principales_villes : M Ext (list Politician) :=
  log INFO MsgMairesStart ;;;
  r <- attempt fetch_maires_try ;;
  match r with
  | Ok mayors => ret mayors
  | Raise e => log ERROR (MsgMairesFailed e) ;;; ret []
  end.

(** The per-record fallback of a failed batch. *)
Fixpoint insert_each (batch : list Politician) (total_inserted : Z) : M Ext Z :=
  match batch with
  | [] => ret total_inserted
  | politician :: rest =>
      r <- attempt (supabase_insert (Single politician)) ;;
      match r with
      | Ok _ => insert_each rest (total_inserted + 1)%Z
      | Raise individual_error =>
          log ERROR (MsgRecordError
                       (get (name politician) (py "Unknown"))
                       individual_error) ;;;
          insert_each rest total_inserted
      end
  end.

(** One iteration of the [for i in range(...)] loop. *)
Definition insert_one_batch (politicians : list Politician) (batch_size : Z)
    (total_inserted : Z) (i : Z) : M Ext Z :=
  let batch := slice politicians i (i + batch_size) in
  r <- attempt (supabase_insert (Bulk batch)) ;;
  match r with
  | Ok _ =>
      log INFO (MsgBatchInserted (i / batch_size + 1)%Z (length batch)) ;;;
      ret (total_inserted + Z.of_nat (length batch))%Z
  | Raise e =>
      log ERROR (MsgBatchError (i / batch_size + 1)%Z e) ;;;
      insert_each batch total_inserted
  end.

Fixpoint for_range (body : Z -> Z -> M Ext Z) (indices : list Z) (acc : Z)
  : M Ext Z :=
  match indices with
  | [] => ret acc
  | i :: rest => acc' <- body acc i ;; for_range body rest acc'
  end.

Definition insert_politicians_batch (politicians : list Politician)
    (batch_size : Z) : M Ext Z :=
  indices <- lift (py_range 0 (Z.of_nat (length politicians)) batch_size) ;;
  for_range (insert_one_batch politicians batch_size) indices 0%Z.

Definition populate_database : M Ext Z :=
  log INFO MsgStart ;;;
  deputies <- fetch_deputes ;;
  senators <- fetch_senateurs ;;
  ministers <- fetch_ministres_gouvernement_bayrou ;;
  mayors <- fetch_maires_principales_villes ;;
  let all_politicians := deputies ++ senators ++ ministers ++ mayors in
  let cleaned_politicians := _clean_and_deduplicate all_politicians in
  log INFO (MsgTotalCleaned (length cleaned_politicians)) ;;;
  match cleaned_politicians with
  | _ :: _ =>
      inserted_count <- insert_politicians_batch cleaned_politicians 50%Z ;;
      log INFO (MsgDone inserted_count (length cleaned_politicians)) ;;;
      ret inserted_count
  | [] =>
      log WARNING MsgNothing ;;;
      ret 0%Z
  end.

End Methods.

(** ** The script entry [main]

    What [main] prints is kept as a report: the success line with the
    count, the failure line, or the lines of its [except] clause (which
    also sends the error to the root logger). *)


Section Script.
Context {Ext : Type} `{Outside Ext}.


End Script.

(** ** Text fields that are not strings

    The dictionaries of the program are untyped.  This part follows the
    four text keys of a fetched entity when their values need not be
    strings, through the construction of a senator and through the
    deduplicator. *)

(** What a text key may hold: a string, the float NaN that [pd.read_csv]
    gives for an empty cell, or [None] (a JSON null). *)
Inductive pyval :=
  | PyString (s : pystr)
  | PyNaN
  | PyNone.

(** The outcome of a call of a method that only strings have. *)
Inductive Attr (A : Type) :=
  | Has (a : A)
  | AttributeError.
Arguments Has {A} a.
Arguments AttributeError {A}.

(** [v.strip()] *)
Definition strip_value (v : pyval) : Attr pystr :=
  match v with
  | PyString s => Has (strip s)
  | PyNaN | PyNone => AttributeError
  end.

(** [f"{v}"] *)
Definition format_value (v : pyval) : pystr :=
  match v with
  | PyString s => s
  | PyNaN => py "nan"
  | PyNone => py "None"
  end.

(** [bool(v)]: NaN is a float other than zero. *)
Definition truthy_value (v : pyval) : bool :=
  match v with
  | PyString s => truthy s
  | PyNaN => true
  | PyNone => false
  end.

(** [_determine_orientation] on any value: [not party] returns ['center']
    for [None] and for the empty string, and [party.lower()] is called on
    everything else. *)
Definition _determine_orientation_value (party : pyval) : Attr pystr :=
  match party with
  | PyString s => Has (_determine_orientation s)
  | PyNaN => AttributeError
  | PyNone => Has (py "center")
  end.

(** A fetched dictionary: its four text keys ([None]: key absent) and, in
    [other_keys], the keys that the deduplicator leaves alone (the text
    fields of [other_keys] itself are not read). *)
Record Fetched := mkFetched {
  fetched_name : option pyval;
  fetched_first_name : option pyval;
  fetched_last_name : option pyval;
  fetched_party : option pyval;
  other_keys : Politician
}.

(** An entity whose text fields are strings, as a fetched dictionary. *)
Definition fetched_of (politician : Politician) : Fetched :=
  mkFetched (option_map PyString (name politician))
    (option_map PyString (first_name politician))
    (option_map PyString (last_name politician))
    (option_map PyString (party politician))
    politician.

(** The cells of an active row of the senators' CSV. *)
Record SenatorCells := mkSenatorCells {
  cell_prenom : option pyval;         (* 'Prénom' *)
  cell_nom_usage : option pyval;      (* 'Nom usage' *)
  cell_nom : option pyval;            (* 'Nom' *)
  cell_groupe : option pyval          (* 'Groupe politique' *)
}.

(** The body of the loop of [fetch_senateurs] on such a row.  The name and
    the styler read the cells through f-strings only, hence their
    formatted values; [_determine_orientation] is the one call that can
    raise. *)
Definition senator_of_cells (row : SenatorCells) : Attr Fetched :=
  let first := get (cell_prenom row) (PyString []) in
  let usage := get (cell_nom_usage row) (PyString []) in
  let last := if truthy_value usage then usage
              else get (cell_nom row) (PyString []) in
  let group := get (cell_groupe row) (PyString []) in
  match _determine_orientation_value group with
  | AttributeError => AttributeError
  | Has orientation =>
      Has (mkFetched
             (Some (PyString
                      (strip (format_value first ++ [SPACE] ++ format_value last))))
             (Some first) (Some last) (Some group)
             (_assign_visual_elements
                (new_politician
                   (strip (format_value first ++ [SPACE] ++ format_value last))
                   (format_value first) (format_value last)
                   (format_value group)
                   (py "Sénateur") orientation 80%Z)))
  end.

(** The four [politician.get(k, '').strip()] calls on a fetched dictionary. *)
Definition clean_fetched (politician : Fetched) : Attr Politician :=
  match strip_value (get (fetched_name politician) (PyString [])) with
  | AttributeError => AttributeError
  | Has name_ =>
  match strip_value (get (fetched_first_name politician) (PyString [])) with
  | AttributeError => AttributeError
  | Has first =>
  match strip_value (get (fetched_last_name politician) (PyString [])) with
  | AttributeError => AttributeError
  | Has last =>
  match strip_value (get (fetched_party politician) (PyString [])) with
  | AttributeError => AttributeError
  | Has party_ =>
      let other := other_keys politician in
      Has {| name := Some name_;
             first_name := Some first;
             last_name := Some last;
             party := Some party_;
             position := position other;
             political_orientation := political_orientation other;
             credibility_score := credibility_score other;
             avatar_url := avatar_url other;
             card_color := card_color other;
             cartoon_expression := cartoon_expression other;
             credibility_badge := credibility_badge other;
             credibility_label := credibility_label other;
             highlight := highlight other;
             crown := crown other |}
  end end end end.

(** The loop of [_clean_and_deduplicate] on fetched dictionaries: the
    exception of a [.strip()] leaves the loop, and the function. *)
Fixpoint dedup_loop_fetched (politicians : list Fetched) (seen : gset pystr)
    (cleaned : list Politician) : Attr (list Politician) :=
  match politicians with
  | [] => Has cleaned
  | politician :: rest =>
      match clean_fetched politician with
      | AttributeError => AttributeError
      | Has politician =>
          let key := dedup_key politician in
          if negb (bool_decide (key ∈ seen))
             && truthy (get (name politician) [])
             && truthy (position politician)
             && negb (PyStr.eqb key [UNDERSCORE])
          then dedup_loop_fetched rest ({[key]} ∪ seen) (cleaned ++ [politician])
          else dedup_loop_fetched rest seen cleaned
      end
  end.

Definition _clean_and_deduplicate_fetched (politicians : list Fetched)
  : Attr (list Politician) :=
  dedup_loop_fetched politicians ∅ [].

(** * Vocabulary of the statements *)

(** ** Tiers *)

(** The specification's names for the three branches of the styler. *)
Inductive tier := high | medium | low.

Definition tier_style (t : tier) : pystr * pystr * pystr :=
  match t with
  | high => (py "confident", py "🏆", py "Il assure lauiss !")
  | medium => (py "neutral", py "⚖️", py "Moyen lauiss...")
  | low => (py "skeptical", py "⚠️", py "Louche lauiss !")
  end.

(** An entity carries the styling of tier [t]. *)
Definition has_tier (politician : Politician) (t : tier) : Prop :=
  let '(expression, badge, label) := tier_style t in
  cartoon_expression politician = Some expression
  /\ credibility_badge politician = Some badge
  /\ credibility_label politician = Some label.

(** A deputy with score [s], as an adapter would build it. *)
Definition scored (s : Z) : Politician :=
  new_politician (py "Jean Dupont") (py "Jean") (py "Dupont") (py "Renaissance")
    (py "Député") (py "center") s.

(** The same dictionary without the ['credibility_score'] key. *)
Definition unscored : Politician :=
  {| name := Some (py "Jean Dupont"); first_name := Some (py "Jean");
     last_name := Some (py "Dupont"); party := Some (py "Renaissance");
     position := py "Député"; political_orientation := Some (py "center");
     credibility_score := None; avatar_url := None; card_color := None;
     cartoon_expression := None; credibility_badge := None;
     credibility_label := None; highlight := None; crown := None |}.

(** ** Deduplication *)

(** The part of the guard that does not depend on [seen]: name and position
    are not empty and the key is not the degenerate ["_"].  Stated on an
    entity whose fields are already cleaned. *)
Definition valid (politician : Politician) : bool :=
  truthy (get (name politician) [])
  && truthy (position politician)
  && negb (PyStr.eqb (dedup_key politician) [UNDERSCORE]).

(** The key as the specification words it, for comparison: the lowercase
    names joined by an underscore, with the spaces removed. *)
Definition key_spaces_stripped (politician : Politician) : pystr :=
  List.filter (fun c => negb (c =? SPACE))
    (lower (get (first_name politician) []) ++ [UNDERSCORE]
     ++ lower (get (last_name politician) [])).

(** The same without any treatment of inner spaces. *)
Definition key_plain (politician : Politician) : pystr :=
  lower (get (first_name politician) []) ++ [UNDERSCORE]
  ++ lower (get (last_name politician) []).

(** The keys carried by a list of entities. *)
Definition keys_of (l : list Politician) : gset pystr :=
  list_to_set (List.map dedup_key l).

(** Three entities with the key [jean_dupont]; the first has an empty
    position, the third untrimmed names. *)
Definition jean_without_position : Politician :=
  new_politician (py "Jean Dupont") (py "Jean") (py "Dupont")
    (py "Renaissance") [] (py "center") 100%Z.

Definition jean_senator : Politician :=
  new_politician (py "Jean Dupont") (py "Jean") (py "Dupont")
    (py "Les Républicains") (py "Sénateur") (py "center-right") 80%Z.

Definition jean_mayor : Politician :=
  new_politician (py "Jean Dupont") (py " Jean") (py "Dupont ")
    (py "Non renseigné") (py "Maire de LYON") (py "center") 70%Z.

(** An entity whose names are empty, as a record without [prenom] and
    [nom] yields. *)
Definition nameless (position_ : pystr) : Politician :=
  new_politician [] [] [] (py "Non inscrit") position_ (py "center") 100%Z.

(** A last name with an inner space. *)
Definition marine : Politician :=
  new_politician (py "Marine Le Pen") (py "Marine") (py "Le Pen")
    (py "Rassemblement National") (py "Député") (py "right") 100%Z.

(** ** Runs of the batch persister *)

(** The batches a run walks through, each with its start index: the loop
    header [for i in range(0, len(politicians), batch_size)] and the slice
    [politicians[i:i + batch_size]]. *)
Definition batches (politicians : list Politician) (batch_size : Z)
  : list (Z * list Politician) :=
  match py_range 0 (Z.of_nat (length politicians)) batch_size with
  | Ok indices =>
      List.map (fun i => (i, slice politicians i (i + batch_size))) indices
  | Raise _ => []
  end.

(** What happened to one batch: the bulk call went through, or it raised
    [e] and each record was sent alone, [outs] giving for each record the
    exception its own call raised, if any. *)
Inductive BatchOutcome :=
  | BulkOk
  | Fallback (e : exn) (outs : list (option exn)).

Definition single_ok (o : option exn) : bool :=
  match o with None => true | Some _ => false end.

Fixpoint each_events (batch : list Politician) (outs : list (option exn))
  : list Event :=
  match batch, outs with
  | p :: batch', o :: outs' =>
      EvInsert (Single p) (single_ok o) :: each_events batch' outs'
  | _, _ => []
  end.

Fixpoint each_logs (batch : list Politician) (outs : list (option exn))
  : list LogRecord :=
  match batch, outs with
  | p :: batch', o :: outs' =>
      match o with
      | Some e =>
          (ERROR, MsgRecordError (get (name p) (py "Unknown")) e)
          :: each_logs batch' outs'
      | None => each_logs batch' outs'
      end
  | _, _ => []
  end.

Definition count_ok (outs : list (option exn)) : nat :=
  length (List.filter single_ok outs).

Definition outcome_fits (b : Z * list Politician) (o : BatchOutcome) : Prop :=
  match o with
  | BulkOk => True
  | Fallback _ outs => length outs = length (snd b)
  end.

Definition outcome_events (b : Z * list Politician) (o : BatchOutcome)
  : list Event :=
  match o with
  | BulkOk => [EvInsert (Bulk (snd b)) true]
  | Fallback _ outs =>
      EvInsert (Bulk (snd b)) false :: each_events (snd b) outs
  end.

Definition outcome_logs (batch_size : Z) (b : Z * list Politician)
    (o : BatchOutcome) : list LogRecord :=
  match o with
  | BulkOk =>
      [(INFO, MsgBatchInserted (fst b / batch_size + 1)%Z (length (snd b)))]
  | Fallback e outs =>
      (ERROR, MsgBatchError (fst b / batch_size + 1)%Z e)
      :: each_logs (snd b) outs
  end.

(** For each record of the batch, whether it was counted as inserted. *)
Definition outcome_flags (b : Z * list Politician) (o : BatchOutcome)
  : list bool :=
  match o with
  | BulkOk => List.map (fun _ => true) (snd b)
  | Fallback _ outs => List.map single_ok outs
  end.

Definition outcome_count (b : Z * list Politician) (o : BatchOutcome) : nat :=
  match o with
  | BulkOk => length (snd b)
  | Fallback _ outs => count_ok outs
  end.

Fixpoint run_events (bs : list (Z * list Politician)) (os : list BatchOutcome)
  : list Event :=
  match bs, os with
  | b :: bs', o :: os' => outcome_events b o ++ run_events bs' os'
  | _, _ => []
  end.

Fixpoint run_logs (batch_size : Z) (bs : list (Z * list Politician))
    (os : list BatchOutcome) : list LogRecord :=
  match bs, os with
  | b :: bs', o :: os' => outcome_logs batch_size b o ++ run_logs batch_size bs' os'
  | _, _ => []
  end.

Fixpoint run_flags (bs : list (Z * list Politician)) (os : list BatchOutcome)
  : list bool :=
  match bs, os with
  | b :: bs', o :: os' => outcome_flags b o ++ run_flags bs' os'
  | _, _ => []
  end.

Fixpoint run_count (bs : list (Z * list Politician)) (os : list BatchOutcome)
  : nat :=
  match bs, os with
  | b :: bs', o :: os' => outcome_count b o + run_count bs' os'
  | _, _ => O
  end.

(** The names the per-record error lines of a log carry: the failed
    records. *)
Fixpoint failed_records (entries : list LogRecord) : list pystr :=
  match entries with
  | [] => []
  | (ERROR, MsgRecordError who _) :: rest => who :: failed_records rest
  | _ :: rest => failed_records rest
  end.

(** The names of the records whose flag is [false]. *)
Fixpoint unflagged (politicians : list Politician) (flags : list bool)
  : list pystr :=
  match politicians, flags with
  | p :: ps, f :: fs =>
      if f then unflagged ps fs
      else get (name p) (py "Unknown") :: unflagged ps fs
  | _, _ => []
  end.

Definition count_true (flags : list bool) : nat :=
  length (List.filter (fun f => f) flags).

(** ** A simulated outside world

    The sources serve fixed documents (or fail); the table accepts a call
    unless one of the names it carries is already stored or occurs twice in
    the call (a uniqueness constraint on the name), and stores nothing of a
    rejected call. *)

Record Sim := mkSim {
  served : list (pystr * Json);
  senators_file : option (list SenatorRow);
  mayors_file : option (list MayorRow);
  table : list pystr
}.

Definition payload_names (payload : Payload) : list pystr :=
  match payload with
  | Bulk batch => List.map (fun p => get (name p) []) batch
  | Single p => [get (name p) []]
  end.

Definition sim_insert (payload : Payload) (s : Sim) : Result unit * Sim :=
  let names := payload_names payload in
  if existsb (fun n => bool_decide (n ∈ table s)) names
     || negb (bool_decide (NoDup names))
  then (Raise (External 23505), s)
  else (Ok tt, mkSim (served s) (senators_file s) (mayors_file s)
                 (table s ++ names)).

Fixpoint sim_lookup (docs : list (pystr * Json)) (url : pystr) : Result Json :=
  match docs with
  | [] => Raise (External 404)
  | (u, doc) :: rest => if PyStr.eqb u url then Ok doc else sim_lookup rest url
  end.

#[global] Instance Sim_outside : Outside Sim := {|
  requests_get_json := fun url s => (sim_lookup (served s) url, s);
  read_senators_csv := fun s =>
    (match senators_file s with
     | Some rows => Ok rows
     | None => Raise (External 503)
     end, s);
  read_mayors_csv := fun s =>
    (match mayors_file s with
     | Some rows => Ok rows
     | None => Raise (External 503)
     end, s);
  insert_execute := sim_insert;
  create_client := fun _ _ => None
|}.

(** The world before a run: empty log, empty history. *)
Definition start (s : Sim) : World Sim := mkWorld s [] [].

(** Fifty records named P01 ... P50; the table already holds P23. *)
Definition numbered (k : nat) : Politician :=
  new_politician
    (py "P" ++ [0x30 + N.of_nat (k / 10); 0x30 + N.of_nat (k mod 10)])
    (py "P") [0x30 + N.of_nat (k / 10); 0x30 + N.of_nat (k mod 10)]
    (py "Renaissance") (py "Député") (py "center") 100%Z.

Definition fifty : list Politician := List.map numbered (seq 1 50).

Definition table_with_p23 : Sim := mkSim [] None None [py "P23"].

(** ** Adapters and entry point *)

(** The log lines of an adapter name no failed record. *)
Definition quiet (entries : list LogRecord) : Prop :=
  failed_records entries = [].

(** The world after one more line in the log. *)
Definition logged {Ext} (lvl : Level) (msg : Message) (w : World Ext)
  : World Ext :=
  mkWorld (ext w) (logs w ++ [(lvl, msg)]) (history w).

(** A computation that only adds quiet lines to the log, whatever its
    outcome. *)
Definition quietly {Ext A} (m : M Ext A) : Prop :=
  forall w, exists r w' entries,
    m w = (r, w') /\ logs w' = logs w ++ entries /\ quiet entries.

(** The shape shared by the three guarded adapters: a start line, the
    [try] block, and the [except] clause. *)
Definition guarded {Ext} (start_msg : Message) (failed_msg : exn -> Message)
    (body : M Ext (list Politician)) : M Ext (list Politician) :=
  log INFO start_msg ;;;
  r <- attempt body ;;
  match r with
  | Ok l => ret l
  | Raise e => log ERROR (failed_msg e) ;;; ret []
  end.

(** An adapter that always returns a list and leaves only quiet lines. *)
Definition absorbing {Ext} (m : M Ext (list Politician)) : Prop :=
  forall w, exists l w' entries,
    m w = (Ok l, w') /\ logs w' = logs w ++ entries /\ quiet entries.

(** The numbers the "total after cleaning" lines of a log carry. *)
Fixpoint cleaned_totals (entries : list LogRecord) : list nat :=
  match entries with
  | [] => []
  | (_, MsgTotalCleaned n) :: rest => n :: cleaned_totals rest
  | _ :: rest => cleaned_totals rest
  end.

(** The messages a log holds at level WARNING. *)
Definition warnings (entries : list LogRecord) : list Message :=
  List.map snd
    (List.filter (fun r => match fst r with WARNING => true | _ => false end)
       entries).

(** [populate_database] from the list of all the entities fetched on
    (lines 529-541): deduplication, the line with the total, and the
    persister. *)
Definition clean_and_persist {Ext} `{Outside Ext}
    (all_politicians : list Politician) : M Ext Z :=
  let cleaned_politicians := _clean_and_deduplicate all_politicians in
  log INFO (MsgTotalCleaned (length cleaned_politicians)) ;;;
  match cleaned_politicians with
  | _ :: _ =>
      inserted_count <- insert_politicians_batch cleaned_politicians 50%Z ;;
      log INFO (MsgDone inserted_count (length cleaned_politicians)) ;;;
      ret inserted_count
  | [] =>
      log WARNING MsgNothing ;;;
      ret 0%Z
  end.

(** Only the built-in ministers: every remote source fails. *)
Definition sim_no_source : Sim := mkSim [] None None [].

Definition row_jean : SenatorRow :=
  mkSenatorRow (Some (py "Jean")) (Some (py "Dupont")) None
    (Some (py "Les Républicains")) true.

(** One senator comes in, and the table already holds a row of that name. *)
Definition sim_conflict : Sim :=
  mkSim [] (Some [row_jean]) None [py "Jean Dupont"].

Definition acteur_jean : Acteur :=
  mkActeur (Some (py "Jean")) (Some (py "Dupont"))
    (Some [mkMandat [mkOrgane (Some (py "GP")) (Some (py "Renaissance"))]]).

(** The first URL of the deputies answers with one [acteur]; one senator
    comes in as well. *)
Definition sim_deputy : Sim :=
  mkSim
    [(base_url ++ py "/17/amo/deputes/AMO30_deputes_actifs_mandats_actifs_organes_divises.json",
      JDocument [acteur_jean])]
    (Some [mkSenatorRow (Some (py "Anne")) (Some (py "Martin")) None
             (Some (py "Renaissance")) true])
    None [].

(** The six presentation fields the styler sets. *)
Definition styled (p : Politician) : Prop :=
  card_color p <> None /\ cartoon_expression p <> None
  /\ credibility_badge p <> None /\ credibility_label p <> None
  /\ highlight p <> None /\ crown p <> None.

Definition unstyled (p : Politician) : Prop :=
  card_color p = None /\ cartoon_expression p = None
  /\ credibility_badge p = None /\ credibility_label p = None
  /\ highlight p = None /\ crown p = None.

(** ** Ranges of the classifier and of the styler *)

(** The five orientation values. *)
Definition five_orientations : list pystr :=
  [py "left"; py "center-left"; py "center"; py "center-right"; py "right"].

(** The five card colours. *)
Definition five_colors : list pystr :=
  [py "#DC2626"; py "#059669"; py "#1E3A8A"; py "#D97706"; py "#7C2D12"].

(** The test of the role loop: [role.lower() in position.lower()]. *)
Definition matches_role (position_ role : pystr) : bool :=
  contains (lower position_) (lower role).

(** A string without leading or trailing whitespace. *)
Definition trimmed (s : pystr) : Prop :=
  lstrip s = s /\ lstrip (rev s) = rev s.

(** Two spellings of one name that differ in where the first name ends. *)
Definition jean_luc_martin : Politician :=
  new_politician (py "Jean Luc Martin") (py "Jean Luc") (py "Martin")
    (py "Renaissance") (py "Député") (py "center") 100%Z.

Definition jean_lucmartin : Politician :=
  new_politician (py "Jean Luc Martin") (py "Jean") (py "Luc Martin")
    (py "Renaissance") (py "Sénateur") (py "center") 80%Z.

(** ** Two extreme tables

    No source answers; the table accepts every call, or rejects every
    call. *)

Inductive AcceptAll := accept_all.

#[global] Instance AcceptAll_outside : Outside AcceptAll := {|
  requests_get_json := fun _ s => (Raise (External 404), s);
  read_senators_csv := fun s => (Raise (External 503), s);
  read_mayors_csv := fun s => (Raise (External 503), s);
  insert_execute := fun _ s => (Ok tt, s);
  create_client := fun _ _ => None
|}.

Inductive RejectAll := reject_all.

#[global] Instance RejectAll_outside : Outside RejectAll := {|
  requests_get_json := fun _ s => (Raise (External 404), s);
  read_senators_csv := fun s => (Raise (External 503), s);
  read_mayors_csv := fun s => (Raise (External 503), s);
  insert_execute := fun _ s => (Raise (External 23505), s);
  create_client := fun _ _ => None
|}.

(** The events of a run in which every bulk call goes through. *)
Definition bulk_events (bs : list (Z * list Politician)) : list Event :=
  List.map (fun b => EvInsert (Bulk (snd b)) true) bs.

(** The events of a run in which every call raises. *)
Definition rejected_events (bs : list (Z * list Politician)) : list Event :=
  flat_map
    (fun b => EvInsert (Bulk (snd b)) false
              :: List.map (fun p => EvInsert (Single p) false) (snd b))
    bs.

(** ** Deputies *)

(** The first URL [fetch_deputes] tries. *)
Definition first_url : pystr :=
  base_url ++ py "/17/amo/deputes/AMO30_deputes_actifs_mandats_actifs_organes_divises.json".

(** An [acteur] whose list of mandates is empty. *)
Definition acteur_no_mandate : Acteur :=
  mkActeur (Some (py "Anne")) (Some (py "Martin")) (Some []).

(** The first URL answers with a good and a bad [acteur]. *)
Definition sim_bad_acteur : Sim :=
  mkSim [(first_url, JDocument [acteur_jean; acteur_no_mandate])] None None [].

(** The first URL answers with an empty document, the second one with a
    deputy. *)
Definition sim_falsy_first : Sim :=
  mkSim [(first_url, JFalsy);
         (base_url ++ py "/16/amo/deputes/AMO30_deputes_actifs_mandats_actifs_organes_divises.json",
          JDocument [acteur_jean])]
    None None [].

(** [l1] is a non-empty initial segment of [l2]. *)
Definition initial_segment {A} (l1 l2 : list A) : Prop :=
  l1 <> [] /\ exists rest, l2 = l1 ++ rest.

(** The keys of the nine ministers. *)
Definition minister_keys : list pystr :=
  List.map (fun m => dedup_key (clean_fields (_assign_visual_elements m)))
    ministres.

(** ** Values of the text keys *)

Definition is_string (v : option pyval) : bool :=
  match v with
  | Some PyNaN | Some PyNone => false
  | Some (PyString _) | None => true
  end.

(** The four text keys hold strings, or are absent. *)
Definition text_is_string (politician : Fetched) : bool :=
  is_string (fetched_name politician)
  && is_string (fetched_first_name politician)
  && is_string (fetched_last_name politician)
  && is_string (fetched_party politician).

(** An active senator whose 'Prénom' cell is empty. *)
Definition cells_no_first_name : SenatorCells :=
  mkSenatorCells (Some PyNaN) (Some (PyString (py "Dupont"))) None
    (Some (PyString (py "Renaissance"))).

(** * Properties *)

(** ** Python strings *)

Example py_accent : py "é" = [0xE9].
Proof. reflexivity. Qed.

Example lower_republicains :
  lower (py "Les Républicains") = py "les républicains".
Proof. reflexivity. Qed.

Example orientation_lr_plain :
  _determine_orientation (py "Les Republicains") = py "center-right".
Proof. reflexivity. Qed.

(** ** Credibility tiers *)

Lemma styled_credibility (p : Politician) :
  (cartoon_expression (_assign_visual_elements p),
   credibility_badge (_assign_visual_elements p),
   credibility_label (_assign_visual_elements p))
  = (let '(e, b, l) := credibility_style (get (credibility_score p) 100%Z) in
     (Some e, Some b, Some l)).
Proof.
  unfold _assign_visual_elements.
  destruct (credibility_style _) as [[e b] l].
  destruct (role_style _ _) as [hl cr]. reflexivity.
Qed.

Lemma credibility_style_cases (s : Z) :
  (80 <= s /\ credibility_style s = tier_style high)%Z
  \/ (60 <= s < 80 /\ credibility_style s = tier_style medium)%Z
  \/ (s < 60 /\ credibility_style s = tier_style low)%Z.
Proof.
  unfold credibility_style.
  destruct (Z.geb_spec s 80); [left; split; [lia | reflexivity] |].
  destruct (Z.geb_spec s 60); [right; left | right; right];
    (split; [lia | reflexivity]).
Qed.

Lemma tier_style_badge_inj (t1 t2 : tier) :
  snd (fst (tier_style t1)) = snd (fst (tier_style t2)) -> t1 = t2.
Proof. destruct t1, t2; intros Hb; try reflexivity; vm_compute in Hb; discriminate. Qed.

Lemma has_tier_of_style (p : Politician) (t : tier) :
  credibility_style (get (credibility_score p) 100%Z) = tier_style t ->
  has_tier (_assign_visual_elements p) t.
Proof.
  intros Hs. pose proof (styled_credibility p) as Hp. rewrite Hs in Hp.
  unfold has_tier. destruct (tier_style t) as [[e b] l].
  inversion Hp. auto.
Qed.

Lemma has_tier_badge (q : Politician) (t : tier) :
  has_tier q t -> credibility_badge q = Some (snd (fst (tier_style t))).
Proof.
  unfold has_tier. destruct (tier_style t) as [[e b] l]. simpl. tauto.
Qed.

Lemma has_tier_unique (q : Politician) (t1 t2 : tier) :
  has_tier q t1 -> has_tier q t2 -> t1 = t2.
Proof.
  intros H1 H2. apply has_tier_badge in H1, H2.
  apply tier_style_badge_inj. congruence.
Qed.

(** C1. For every score [s], the styler gives the entity the styling of the
    tier [high] (badge 🏆) iff [s >= 80], of [medium] (badge ⚖️) iff
    [60 <= s < 80], and of [low] (badge ⚠️) iff [s < 60]; every score gets
    exactly one tier, the thresholds 80 and 60 belonging to the upper tier. *)
Theorem credibility_tier_partition (p : Politician) (s : Z) :
  credibility_score p = Some s ->
  let q := _assign_visual_elements p in
  (has_tier q high <-> (80 <= s)%Z)
  /\ (has_tier q medium <-> (60 <= s < 80)%Z)
  /\ (has_tier q low <-> (s < 60)%Z)
  /\ (credibility_badge q = Some (py "🏆") <-> (80 <= s)%Z)
  /\ (credibility_badge q = Some (py "⚖️") <-> (60 <= s < 80)%Z)
  /\ (credibility_badge q = Some (py "⚠️") <-> (s < 60)%Z)
  /\ (exists t, has_tier q t)
  /\ (forall t1 t2, has_tier q t1 -> has_tier q t2 -> t1 = t2).
Proof.
  intros Hs q.
  assert (Hcase : exists t, has_tier q t /\
            match t with
            | high => (80 <= s)%Z
            | medium => (60 <= s < 80)%Z
            | low => (s < 60)%Z
            end).
  { destruct (credibility_style_cases s) as [[Hr Hc] | [[Hr Hc] | [Hr Hc]]];
      [exists high | exists medium | exists low];
      (split; [apply has_tier_of_style; rewrite Hs; exact Hc | exact Hr]). }
  destruct Hcase as [t [Ht Hr]].
  assert (Huniq : forall t', has_tier q t' -> t' = t)
    by (intros t' Ht'; exact (has_tier_unique q t' t Ht' Ht)).
  assert (Hbadge : forall t',
            credibility_badge q = Some (snd (fst (tier_style t'))) -> t' = t).
  { intros t' Hb. apply tier_style_badge_inj.
    rewrite (has_tier_badge q t Ht) in Hb. congruence. }
  assert (Hto : forall t', t' = t ->
            match t' with
            | high => (80 <= s)%Z
            | medium => (60 <= s < 80)%Z
            | low => (s < 60)%Z
            end) by (intros t' ->; exact Hr).
  assert (Hfrom : forall t',
            match t' with
            | high => (80 <= s)%Z
            | medium => (60 <= s < 80)%Z
            | low => (s < 60)%Z
            end -> t' = t) by (intros t' Hr'; destruct t, t'; first [reflexivity | lia]).
  split; [split; [intros Hx; exact (Hto high (Huniq _ Hx))
                 | intros Hx; rewrite (Hfrom high Hx); exact Ht] |].
  split; [split; [intros Hx; exact (Hto medium (Huniq _ Hx))
                 | intros Hx; rewrite (Hfrom medium Hx); exact Ht] |].
  split; [split; [intros Hx; exact (Hto low (Huniq _ Hx))
                 | intros Hx; rewrite (Hfrom low Hx); exact Ht] |].
  split; [split; [intros Hx; exact (Hto high (Hbadge high Hx))
                 | intros Hx; rewrite <- (Hfrom high Hx) in Ht;
                   exact (has_tier_badge q high Ht)] |].
  split; [split; [intros Hx; exact (Hto medium (Hbadge medium Hx))
                 | intros Hx; rewrite <- (Hfrom medium Hx) in Ht;
                   exact (has_tier_badge q medium Ht)] |].
  split; [split; [intros Hx; exact (Hto low (Hbadge low Hx))
                 | intros Hx; rewrite <- (Hfrom low Hx) in Ht;
                   exact (has_tier_badge q low Ht)] |].
  split; [exists t; exact Ht |].
  intros t1 t2 H1 H2. exact (has_tier_unique q t1 t2 H1 H2).
Qed.

Lemma credibility_tier_partition_witness :
  credibility_score (scored 80) = Some 80%Z
  /\ has_tier (_assign_visual_elements (scored 80)) high
  /\ credibility_badge (_assign_visual_elements (scored 80)) = Some (py "🏆").
Proof.
  split; [reflexivity |].
  pose proof (credibility_tier_partition (scored 80) 80 eq_refl) as Hp.
  cbv zeta in Hp.
  destruct Hp as (Hh & _ & _ & Hb & _).
  split; [apply Hh; lia | apply Hb; lia].
Defined.

(** The boundary scores of the specification's scenario. *)
Example tier_scenario :
  has_tier (_assign_visual_elements (scored 81)) high
  /\ has_tier (_assign_visual_elements (scored 80)) high
  /\ has_tier (_assign_visual_elements (scored 79)) medium
  /\ has_tier (_assign_visual_elements (scored 60)) medium
  /\ has_tier (_assign_visual_elements (scored 59)) low.
Proof. repeat split; reflexivity. Qed.

(** C10. An entity without any [credibility_score] key is styled as if its
    score were 100: expression [confident], badge 🏆, the high label. *)
Theorem missing_score_defaults_to_high (p : Politician) :
  credibility_score p = None ->
  get (credibility_score p) 100%Z = 100%Z
  /\ has_tier (_assign_visual_elements p) high
  /\ cartoon_expression (_assign_visual_elements p) = Some (py "confident")
  /\ credibility_badge (_assign_visual_elements p) = Some (py "🏆")
  /\ credibility_label (_assign_visual_elements p) = Some (py "Il assure lauiss !")
  /\ ~ has_tier (_assign_visual_elements p) low.
Proof.
  intros Hnone.
  assert (Hh : has_tier (_assign_visual_elements p) high)
    by (apply has_tier_of_style; rewrite Hnone; reflexivity).
  split; [rewrite Hnone; reflexivity |].
  split; [exact Hh |].
  pose proof Hh as (He & Hb & Hl).
  repeat split; try assumption.
  intros Hl'. pose proof (has_tier_unique _ _ _ Hh Hl'). discriminate.
Qed.

Lemma missing_score_defaults_to_high_witness :
  credibility_score unscored = None
  /\ credibility_badge (_assign_visual_elements unscored) = Some (py "🏆").
Proof.
  split; [reflexivity |].
  exact (proj1 (proj2 (proj2 (proj2
           (missing_score_defaults_to_high unscored eq_refl))))).
Defined.

(** ** Orientation classifier *)

(** C6. On the accented label the sources carry, the classifier does not
    reach the ['les republicains'] entry of its table (written without the
    accent) and falls through to the default. *)
Theorem orientation_les_republicains_accented :
  _determine_orientation (py "Les Républicains") = py "center"
  /\ _determine_orientation (py "Les Républicains") <> py "center-right"
  /\ first_match orientations (lower (py "Les Républicains")) = None.
Proof. repeat split; vm_compute; congruence. Qed.

(** ** Deduplicator *)

Section Dedup.

Implicit Types (l : list Politician) (seen : gset pystr) (e x : Politician).

Lemma dedup_loop_acc l : forall seen acc,
  dedup_loop l seen acc = acc ++ dedup_loop l seen [].
Proof.
  induction l as [| e l IH]; intros seen acc; simpl.
  - by rewrite app_nil_r.
  - destruct (_ && _).
    + rewrite IH. rewrite (IH _ [clean_fields e]). by rewrite <- app_assoc.
    + apply IH.
Qed.

(** One iteration, with the guard split into its [seen] part and [valid]. *)
Lemma dedup_loop_cons e l seen :
  dedup_loop (e :: l) seen [] =
    if negb (bool_decide (dedup_key (clean_fields e) ∈ seen))
       && valid (clean_fields e)
    then clean_fields e
         :: dedup_loop l ({[dedup_key (clean_fields e)]} ∪ seen) []
    else dedup_loop l seen [].
Proof.
  simpl. unfold valid. rewrite <- !andb_assoc.
  destruct (_ && _); [| reflexivity].
  by rewrite dedup_loop_acc.
Qed.

Lemma keys_of_nil_union seen : keys_of [] ∪ seen = seen.
Proof. unfold keys_of. cbn [List.map list_to_set]. set_solver. Qed.

Lemma keys_of_cons_union x l seen :
  keys_of (x :: l) ∪ seen = keys_of l ∪ ({[dedup_key x]} ∪ seen).
Proof. unfold keys_of. cbn [List.map list_to_set]. set_solver. Qed.

Lemma dedup_loop_app l1 : forall l2 seen,
  dedup_loop (l1 ++ l2) seen [] =
    dedup_loop l1 seen []
    ++ dedup_loop l2 (keys_of (dedup_loop l1 seen []) ∪ seen) [].
Proof.
  induction l1 as [| e l1 IH]; intros l2 seen.
  - cbn [app dedup_loop]. by rewrite keys_of_nil_union.
  - rewrite <- app_comm_cons. rewrite !dedup_loop_cons.
    destruct (_ && _); [| apply IH].
    rewrite IH. by rewrite keys_of_cons_union.
Qed.

(** Keys of the output are fresh with respect to [seen] and pairwise
    distinct. *)
Lemma dedup_loop_fresh l : forall seen x,
  x ∈ dedup_loop l seen [] -> dedup_key x ∉ seen.
Proof.
  induction l as [| e l IH]; intros seen x Hx.
  - simpl in Hx. by apply not_elem_of_nil in Hx.
  - rewrite dedup_loop_cons in Hx.
    destruct (negb _) eqn:Hseen; simpl in Hx;
      [destruct (valid _) eqn:Hv |]; try (by apply IH).
    apply elem_of_cons in Hx as [-> | Hx].
    + apply negb_true_iff, bool_decide_eq_false in Hseen. exact Hseen.
    + apply IH in Hx. set_solver.
Qed.

Lemma dedup_loop_NoDup l : forall seen,
  NoDup (List.map dedup_key (dedup_loop l seen [])).
Proof.
  induction l as [| e l IH]; intros seen.
  - simpl. constructor.
  - rewrite dedup_loop_cons. destruct (_ && _); [| apply IH].
    simpl. constructor; [| apply IH].
    intros Hin. apply list_elem_of_fmap in Hin as [x [Hk Hx]].
    apply dedup_loop_fresh in Hx. set_solver.
Qed.

(** Every output entity is the cleaned form of a valid input entity whose
    key was not seen and does not occur on a valid entity before it. *)
Lemma dedup_loop_origin l : forall seen x,
  x ∈ dedup_loop l seen [] ->
  exists l1 e l2,
    l = l1 ++ e :: l2 /\ x = clean_fields e
    /\ valid (clean_fields e) = true
    /\ (dedup_key (clean_fields e) ∉ seen)
    /\ forall e', e' ∈ l1 -> valid (clean_fields e') = true ->
                  dedup_key (clean_fields e') <> dedup_key (clean_fields e).
Proof.
  induction l as [| e l IH]; intros seen x Hx.
  - simpl in Hx. by apply not_elem_of_nil in Hx.
  - rewrite dedup_loop_cons in Hx.
    destruct (negb _) eqn:Hseen; simpl in Hx;
      [destruct (valid _) eqn:Hv |].
    + apply elem_of_cons in Hx as [-> | Hx].
      * exists [], e, l. repeat split; try done.
        -- apply negb_true_iff, bool_decide_eq_false in Hseen. exact Hseen.
        -- intros e' He'. by apply not_elem_of_nil in He'.
      * destruct (IH _ _ Hx) as (l1 & e0 & l2 & -> & -> & Hv0 & Hns & Hfirst).
        exists (e :: l1); exists e0; exists l2. repeat split; try done.
        -- set_solver.
        -- intros e' He' Hv'. apply elem_of_cons in He' as [-> | He'].
           ++ set_solver.
           ++ by apply Hfirst.
    + destruct (IH _ _ Hx) as (l1 & e0 & l2 & -> & -> & Hv0 & Hns & Hfirst).
      exists (e :: l1); exists e0; exists l2. repeat split; try done.
      intros e' He' Hv'. apply elem_of_cons in He' as [-> | He'].
      * congruence.
      * by apply Hfirst.
    + destruct (IH _ _ Hx) as (l1 & e0 & l2 & -> & -> & Hv0 & Hns & Hfirst).
      exists (e :: l1); exists e0; exists l2. repeat split; try done.
      intros e' He' Hv'. apply elem_of_cons in He' as [-> | He'].
      * apply negb_false_iff, bool_decide_eq_true in Hseen. congruence.
      * by apply Hfirst.
Qed.

(** The key of every valid entity processed so far is in [seen] or on an
    output entity. *)
Lemma dedup_loop_covers l : forall seen e,
  e ∈ l -> valid (clean_fields e) = true ->
  dedup_key (clean_fields e) ∈ keys_of (dedup_loop l seen []) ∪ seen.
Proof.
  induction l as [| e0 l IH]; intros seen e He Hv.
  - by apply not_elem_of_nil in He.
  - rewrite dedup_loop_cons.
    apply elem_of_cons in He as [-> | He].
    + rewrite Hv, andb_true_r.
      destruct (bool_decide _) eqn:Hseen; simpl.
      * apply bool_decide_eq_true in Hseen. set_solver.
      * unfold keys_of. simpl. set_solver.
    + destruct (_ && _).
      * specialize (IH ({[dedup_key (clean_fields e0)]} ∪ seen) e He Hv).
        unfold keys_of in *. simpl. set_solver.
      * by apply IH.
Qed.

(** An entity the guard rejects leaves no trace. *)
Lemma dedup_loop_skip l1 e l2 seen :
  valid (clean_fields e) = false
  \/ dedup_key (clean_fields e) ∈ keys_of (dedup_loop l1 seen []) ∪ seen ->
  dedup_loop (l1 ++ e :: l2) seen [] = dedup_loop (l1 ++ l2) seen [].
Proof.
  intros Hrej. rewrite !dedup_loop_app. f_equal.
  rewrite dedup_loop_cons.
  destruct Hrej as [-> | Hin].
  - by rewrite andb_false_r.
  - by rewrite (bool_decide_eq_true_2 _ Hin).
Qed.

Lemma dedup_loop_first_kept l1 e l2 seen :
  valid (clean_fields e) = true ->
  dedup_key (clean_fields e) ∉ seen ->
  (forall e', e' ∈ l1 -> valid (clean_fields e') = true ->
              dedup_key (clean_fields e') <> dedup_key (clean_fields e)) ->
  clean_fields e ∈ dedup_loop (l1 ++ e :: l2) seen [].
Proof.
  intros Hv Hns Hfirst. rewrite dedup_loop_app, dedup_loop_cons.
  apply elem_of_app. right.
  rewrite Hv, andb_true_r.
  rewrite bool_decide_eq_false_2; [simpl; apply elem_of_cons; by left |].
  intros Hin. apply elem_of_union in Hin as [Hin | Hin]; [| done].
  unfold keys_of in Hin. apply elem_of_list_to_set in Hin.
  apply list_elem_of_fmap in Hin as [x [Hk Hx]].
  apply dedup_loop_origin in Hx as (l1a & e' & l1b & -> & -> & Hv' & _ & _).
  apply (Hfirst e'); [set_solver | done | done].
Qed.

End Dedup.

(** *** Facts about the key *)

Lemma replace_app (old new : codepoint) (s t : pystr) :
  replace old new (s ++ t) = replace old new s ++ replace old new t.
Proof. unfold replace. apply map_app. Qed.

Lemma replace_removes (s : pystr) : SPACE ∉ replace SPACE UNDERSCORE s.
Proof.
  unfold replace. intros Hin.
  apply list_elem_of_fmap in Hin as [c [Hc _]].
  destruct (c =? SPACE) eqn:Ec; [discriminate |].
  apply N.eqb_neq in Ec. congruence.
Qed.

Lemma lower_cp_nonempty (c : codepoint) : lower_cp c <> [].
Proof. unfold lower_cp. repeat (destruct (_ : bool); [discriminate |]). discriminate. Qed.

Lemma lower_nil_iff (s : pystr) : lower s = [] <-> s = [].
Proof.
  split; [| intros ->; reflexivity].
  destruct s as [| c s]; [reflexivity |].
  unfold lower. simpl. intros Happ.
  apply app_eq_nil in Happ as [Hc _]. by apply lower_cp_nonempty in Hc.
Qed.

Lemma dedup_key_clean (p : Politician) :
  dedup_key (clean_fields p) =
    replace SPACE UNDERSCORE (lower (strip (get (first_name p) [])))
    ++ [UNDERSCORE]
    ++ replace SPACE UNDERSCORE (lower (strip (get (last_name p) []))).
Proof. unfold dedup_key. cbn [clean_fields first_name last_name get]. by rewrite !replace_app. Qed.

Lemma dedup_key_degenerate (p : Politician) :
  dedup_key (clean_fields p) = [UNDERSCORE]
  <-> strip (get (first_name p) []) = [] /\ strip (get (last_name p) []) = [].
Proof.
  rewrite dedup_key_clean. split.
  - intros Hk. apply (f_equal (@length _)) in Hk.
    rewrite !length_app in Hk. cbn [length] in Hk.
    unfold replace in Hk. rewrite !length_map in Hk.
    split; apply lower_nil_iff, length_zero_iff_nil; lia.
  - intros [-> ->]. reflexivity.
Qed.

Lemma truthy_false_iff (s : pystr) : truthy s = false <-> s = [].
Proof. destruct s; simpl; split; congruence. Qed.

Lemma truthy_true_iff (s : pystr) : truthy s = true <-> s <> [].
Proof. destruct s; simpl; split; congruence. Qed.

Lemma valid_true_iff (q : Politician) :
  valid q = true
  <-> get (name q) [] <> [] /\ position q <> [] /\ dedup_key q <> [UNDERSCORE].
Proof.
  unfold valid, PyStr.eqb. rewrite !andb_true_iff, !truthy_true_iff, negb_true_iff.
  rewrite bool_decide_eq_false. tauto.
Qed.

Lemma valid_false_iff (q : Politician) :
  valid q = false
  <-> get (name q) [] = [] \/ position q = [] \/ dedup_key q = [UNDERSCORE].
Proof.
  unfold valid, PyStr.eqb. rewrite !andb_false_iff, !truthy_false_iff, negb_false_iff.
  rewrite bool_decide_eq_true. tauto.
Qed.

(** C2, as stated, fails: the first entity carrying a key is not kept when
    the guard rejects it, and then a later entity with the same key is kept
    (first pair); when the shared key is the degenerate one, no entity of the
    pair is kept at all (second pair). *)
Lemma dedup_first_occurrence_counterexample :
  dedup_key (clean_fields jean_without_position)
    = dedup_key (clean_fields jean_senator)
  /\ _clean_and_deduplicate [jean_without_position; jean_senator]
     = [clean_fields jean_senator]
  /\ (clean_fields jean_without_position
      ∉ _clean_and_deduplicate [jean_without_position; jean_senator])
  /\ dedup_key (clean_fields (nameless (py "Député")))
     = dedup_key (clean_fields (nameless (py "Sénateur")))
  /\ _clean_and_deduplicate [nameless (py "Député"); nameless (py "Sénateur")]
     = [].
Proof.
  assert (Hout : _clean_and_deduplicate [jean_without_position; jean_senator]
                 = [clean_fields jean_senator]) by (vm_compute; reflexivity).
  split; [vm_compute; reflexivity |].
  split; [exact Hout |].
  split.
  - rewrite Hout. intros Hin. apply list_elem_of_singleton in Hin.
    apply (f_equal position) in Hin. vm_compute in Hin. discriminate.
  - split; vm_compute; reflexivity.
Qed.

(** C2 (amended). For every input list: the output holds at most one entity
    per key; an entity that passes the guard ([valid]) and is the first valid
    one with its key is kept; an entity whose key is already carried by an
    earlier valid entity is dropped, the output being what it would be
    without it; and nothing else is in the output.  Since
    [populate_database] passes [deputies ++ senators ++ ministers ++ mayors],
    "earlier" follows that source order. *)
Theorem dedup_keeps_first_valid (l : list Politician) :
  NoDup (List.map dedup_key (_clean_and_deduplicate l))
  /\ (forall l1 e l2,
        l = l1 ++ e :: l2 ->
        valid (clean_fields e) = true ->
        (forall e', e' ∈ l1 -> valid (clean_fields e') = true ->
                    dedup_key (clean_fields e') <> dedup_key (clean_fields e)) ->
        clean_fields e ∈ _clean_and_deduplicate l)
  /\ (forall l1 e l2,
        l = l1 ++ e :: l2 ->
        (exists e', e' ∈ l1 /\ valid (clean_fields e') = true
                    /\ dedup_key (clean_fields e') = dedup_key (clean_fields e)) ->
        _clean_and_deduplicate l = _clean_and_deduplicate (l1 ++ l2))
  /\ (forall x,
        x ∈ _clean_and_deduplicate l ->
        exists l1 e l2,
          l = l1 ++ e :: l2 /\ x = clean_fields e
          /\ valid (clean_fields e) = true
          /\ forall e', e' ∈ l1 -> valid (clean_fields e') = true ->
                        dedup_key (clean_fields e') <> dedup_key (clean_fields e)).
Proof.
  unfold _clean_and_deduplicate. repeat split.
  - apply dedup_loop_NoDup.
  - intros l1 e l2 -> Hv Hfirst.
    apply dedup_loop_first_kept; [done | set_solver | done].
  - intros l1 e l2 -> (e' & He' & Hv' & Hk).
    apply dedup_loop_skip. right. rewrite <- Hk.
    by apply dedup_loop_covers.
  - intros x Hx.
    destruct (dedup_loop_origin l ∅ x Hx) as (l1 & e & l2 & Hl & Hxe & Hv & _ & Hf).
    exists l1; exists e; exists l2. done.
Qed.

Lemma dedup_keeps_first_valid_witness :
  clean_fields jean_senator
    ∈ _clean_and_deduplicate [jean_without_position; jean_senator; jean_mayor]
  /\ _clean_and_deduplicate [jean_without_position; jean_senator; jean_mayor]
     = _clean_and_deduplicate [jean_without_position; jean_senator].
Proof.
  destruct (dedup_keeps_first_valid
              [jean_without_position; jean_senator; jean_mayor])
    as (_ & Hkept & Hdrop & _).
  split.
  - apply (Hkept [jean_without_position] jean_senator [jean_mayor]);
      [reflexivity | vm_compute; reflexivity |].
    intros e' He' Hv'. apply list_elem_of_singleton in He'. subst e'.
    vm_compute in Hv'. discriminate.
  - apply (Hdrop [jean_without_position; jean_senator] jean_mayor []);
      [reflexivity |].
    exists jean_senator. split; [set_solver |].
    split; vm_compute; reflexivity.
Defined.

(** C7, as stated, fails on the key: inner spaces are not removed but
    replaced by underscores. *)
Lemma dedup_key_spaces_counterexample :
  dedup_key (clean_fields marine) = py "marine_le_pen"
  /\ key_spaces_stripped (clean_fields marine) = py "marine_lepen"
  /\ key_plain (clean_fields marine) = py "marine_le pen"
  /\ dedup_key (clean_fields marine) <> key_spaces_stripped (clean_fields marine)
  /\ dedup_key (clean_fields marine) <> key_plain (clean_fields marine).
Proof. repeat split; vm_compute; congruence. Qed.

(** C7 (amended). The key of a cleaned entity is the lowercase first name,
    an underscore and the lowercase last name, every space replaced by an
    underscore (so the key holds no space), and it is ["_"] exactly when both
    names are empty after trimming.  Every entity of the output of the
    deduplicator has a key other than ["_"], a non-empty name and a
    non-empty position; an input entity that fails one of these is dropped,
    the output being what it would be without it. *)
Theorem dedup_key_and_validity (p : Politician) (l : list Politician) :
  dedup_key (clean_fields p)
    = replace SPACE UNDERSCORE (lower (strip (get (first_name p) [])))
      ++ [UNDERSCORE]
      ++ replace SPACE UNDERSCORE (lower (strip (get (last_name p) [])))
  /\ (SPACE ∉ dedup_key (clean_fields p))
  /\ (dedup_key (clean_fields p) = [UNDERSCORE]
      <-> strip (get (first_name p) []) = [] /\ strip (get (last_name p) []) = [])
  /\ (forall x,
        x ∈ _clean_and_deduplicate l ->
        dedup_key x <> [UNDERSCORE] /\ get (name x) [] <> [] /\ position x <> [])
  /\ (forall l1 e l2,
        l = l1 ++ e :: l2 ->
        dedup_key (clean_fields e) = [UNDERSCORE]
        \/ strip (get (name e) []) = [] \/ position e = [] ->
        _clean_and_deduplicate l = _clean_and_deduplicate (l1 ++ l2)
        /\ clean_fields e ∉ _clean_and_deduplicate l).
Proof.
  split; [apply dedup_key_clean |].
  split; [unfold dedup_key; apply replace_removes |].
  split; [apply dedup_key_degenerate |].
  split.
  - intros x Hx. unfold _clean_and_deduplicate in Hx.
    apply dedup_loop_origin in Hx as (l1 & e & l2 & _ & -> & Hv & _).
    apply valid_true_iff in Hv. tauto.
  - intros l1 e l2 -> Hbad.
    assert (Hv : valid (clean_fields e) = false).
    { apply valid_false_iff. cbn [clean_fields name position get] in *. tauto. }
    split.
    + unfold _clean_and_deduplicate. apply dedup_loop_skip. by left.
    + intros Hin. unfold _clean_and_deduplicate in Hin.
      apply dedup_loop_origin in Hin as (l1' & e' & l2' & _ & Heq & Hv' & _).
      rewrite Heq in Hv. congruence.
Qed.

Lemma dedup_key_and_validity_witness :
  _clean_and_deduplicate [jean_senator; nameless (py "Député"); marine]
  = _clean_and_deduplicate [jean_senator; marine].
Proof.
  destruct (dedup_key_and_validity marine
              [jean_senator; nameless (py "Député"); marine])
    as (_ & _ & _ & _ & Hdrop).
  apply (Hdrop [jean_senator] (nameless (py "Député")) [marine]);
    [reflexivity |].
  left. vm_compute. reflexivity.
Defined.

(** ** Batch persister *)

Section Persister.
Context {Ext : Type} `{Outside Ext}.

Lemma insert_each_run (batch : list Politician) :
  forall (total : Z) (w : World Ext),
  exists outs w',
    insert_each batch total w = (Ok (total + Z.of_nat (count_ok outs))%Z, w')
    /\ length outs = length batch
    /\ history w' = history w ++ each_events batch outs
    /\ logs w' = logs w ++ each_logs batch outs.
Proof.
  induction batch as [| p batch IH]; intros total w.
  - exists [], w. cbn. rewrite Z.add_0_r, !app_nil_r. auto.
  - cbn [insert_each]. unfold bind at 1. unfold attempt, supabase_insert.
    destruct (insert_execute (Single p) (ext w)) as [[u | e] x] eqn:Hx.
    + match goal with |- context [insert_each batch ?t ?w0] =>
        destruct (IH t w0) as (outs & w' & Hrun & Hlen & Hh & Hl) end.
      exists (None :: outs), w'. rewrite Hrun. cbn in *.
      rewrite Hh, Hl, <- app_assoc. repeat split; try done.
      * do 2 f_equal. unfold count_ok. cbn. lia.
      * by rewrite Hlen.
    + unfold bind, log. cbn [ext logs history].
      match goal with |- context [insert_each batch ?t ?w0] =>
        destruct (IH t w0) as (outs & w' & Hrun & Hlen & Hh & Hl) end.
      exists (Some e :: outs), w'. rewrite Hrun. cbn in *.
      rewrite Hh, Hl, <- !app_assoc. repeat split; try done.
      by rewrite Hlen.
Qed.

Lemma insert_one_batch_run (politicians : list Politician) (batch_size : Z)
    (total i : Z) (w : World Ext) :
  let b := (i, slice politicians i (i + batch_size)) in
  exists o w',
    insert_one_batch politicians batch_size total i w
      = (Ok (total + Z.of_nat (outcome_count b o))%Z, w')
    /\ outcome_fits b o
    /\ history w' = history w ++ outcome_events b o
    /\ logs w' = logs w ++ outcome_logs batch_size b o.
Proof.
  intros b. unfold insert_one_batch. unfold bind at 1.
  unfold attempt, supabase_insert.
  destruct (insert_execute (Bulk _) (ext w)) as [[u | e] x] eqn:Hx.
  - exists BulkOk. eexists. unfold bind, log, ret. cbn. auto.
  - unfold bind at 1. unfold log. cbn [ext logs history].
    match goal with |- context [insert_each ?bt ?t ?w0] =>
      destruct (insert_each_run bt t w0) as (outs & w' & Hrun & Hlen & Hh & Hl) end.
    exists (Fallback e outs), w'. rewrite Hrun. cbn in *.
    rewrite Hh, Hl, <- !app_assoc. auto.
Qed.

Lemma for_range_run (politicians : list Politician) (batch_size : Z)
    (indices : list Z) :
  forall (total : Z) (w : World Ext),
  let bs := List.map (fun i => (i, slice politicians i (i + batch_size))) indices in
  exists os w',
    for_range (insert_one_batch politicians batch_size) indices total w
      = (Ok (total + Z.of_nat (run_count bs os))%Z, w')
    /\ Forall2 outcome_fits bs os
    /\ history w' = history w ++ run_events bs os
    /\ logs w' = logs w ++ run_logs batch_size bs os.
Proof.
  induction indices as [| i indices IH]; intros total w bs.
  - exists [], w. cbn. rewrite Z.add_0_r, !app_nil_r. auto.
  - cbn [for_range]. unfold bind.
    destruct (insert_one_batch_run politicians batch_size total i w)
      as (o & w1 & Hrun & Hfit & Hh & Hl).
    rewrite Hrun.
    destruct (IH (total + Z.of_nat (outcome_count
                    (i, slice politicians i (i + batch_size)) o))%Z w1)
      as (os & w' & Hrun' & Hfits & Hh' & Hl').
    exists (o :: os), w'. rewrite Hrun'. subst bs. cbn [List.map run_count run_events run_logs].
    rewrite Hh', Hl', Hh, Hl, <- !app_assoc.
    repeat split; try done.
    + do 2 f_equal. lia.
    + by constructor.
Qed.

End Persister.

(** *** The batches cover the list *)

Lemma chunks_concat {A} (b : nat) (Hb : (0 < b)%nat) :
  forall (n : nat) (l : list A),
    (length l <= n * b)%nat ->
    concat (List.map (fun k => firstn b (skipn (k * b) l)) (seq 0 n)) = l.
Proof.
  induction n as [| n IH]; intros l Hlen.
  - destruct l; [reflexivity | simpl in Hlen; lia].
  - cbn [seq List.map concat]. rewrite <- seq_shift, List.map_map.
    rewrite Nat.mul_0_l. cbn [skipn].
    transitivity (firstn b l ++ skipn b l); [| apply firstn_skipn].
    f_equal.
    rewrite <- (IH (skipn b l)) at 1.
    + f_equal. apply List.map_ext. intros k.
      rewrite skipn_skipn. do 2 f_equal. lia.
    + rewrite length_skipn. lia.
Qed.

Lemma batches_positive (politicians : list Politician) (batch_size : Z) :
  (0 < batch_size)%Z ->
  exists n,
    py_range 0 (Z.of_nat (length politicians)) batch_size
      = Ok (List.map (fun k => (Z.of_nat k * batch_size)%Z) (seq 0 n))
    /\ (length politicians <= n * Z.to_nat batch_size)%nat.
Proof.
  intros Hb. unfold py_range.
  destruct (Z.eqb_spec batch_size 0) as [-> | _]; [lia |].
  destruct (Z.ltb_spec 0 batch_size) as [_ | ?]; [| lia].
  set (len := Z.of_nat (length politicians)).
  eexists. split; [f_equal; apply List.map_ext; intros k; lia |].
  destruct (Z.ltb_spec 0 len) as [Hpos | Hz]; [| subst len; lia].
  replace (len - 0 + batch_size - 1)%Z with (len + batch_size - 1)%Z by lia.
  assert (Hdiv : (len <= (len + batch_size - 1) / batch_size * batch_size)%Z).
  { pose proof (Z.div_mod (len + batch_size - 1) batch_size ltac:(lia)) as Hdm.
    pose proof (Z.mod_pos_bound (len + batch_size - 1) batch_size Hb). nia. }
  assert (Hq : (0 <= (len + batch_size - 1) / batch_size)%Z)
    by (apply Z.div_pos; lia).
  subst len. nia.
Qed.

Lemma batches_cover (politicians : list Politician) (batch_size : Z) :
  (0 < batch_size)%Z ->
  concat (List.map snd (batches politicians batch_size)) = politicians.
Proof.
  intros Hb. unfold batches.
  destruct (batches_positive politicians batch_size Hb) as (n & -> & Hn).
  rewrite !List.map_map. cbn [snd].
  etransitivity;
    [| exact (chunks_concat (Z.to_nat batch_size) ltac:(lia) n politicians Hn)].
  f_equal. apply List.map_ext. intros k. unfold slice.
  f_equal; [lia | f_equal; nia].
Qed.

(** *** Counting *)

Lemma failed_records_app (a b : list LogRecord) :
  failed_records (a ++ b) = failed_records a ++ failed_records b.
Proof.
  induction a as [| [lvl msg] a IH]; [reflexivity |].
  cbn. destruct lvl, msg; cbn; rewrite ?IH; reflexivity.
Qed.

Lemma unflagged_app (p1 p2 : list Politician) (f1 f2 : list bool) :
  length p1 = length f1 ->
  unflagged (p1 ++ p2) (f1 ++ f2) = unflagged p1 f1 ++ unflagged p2 f2.
Proof.
  revert f1. induction p1 as [| p p1 IH]; intros [| f f1] Hlen;
    try discriminate; [reflexivity |].
  cbn. injection Hlen as Hlen. rewrite (IH _ Hlen). by destruct f.
Qed.

Lemma count_true_app (f1 f2 : list bool) :
  count_true (f1 ++ f2) = (count_true f1 + count_true f2)%nat.
Proof. unfold count_true. by rewrite List.filter_app, length_app. Qed.

Lemma unflagged_length (ps : list Politician) (fs : list bool) :
  length ps = length fs ->
  (count_true fs + length (unflagged ps fs) = length ps)%nat.
Proof.
  revert fs. induction ps as [| p ps IH]; intros [| f fs] Hlen;
    try discriminate; [reflexivity |].
  injection Hlen as Hlen. specialize (IH _ Hlen).
  unfold count_true in *. destruct f; cbn; lia.
Qed.

Lemma each_logs_failed (batch : list Politician) (outs : list (option exn)) :
  failed_records (each_logs batch outs)
  = unflagged batch (List.map single_ok outs).
Proof.
  revert outs. induction batch as [| p batch IH]; intros [| o outs];
    try reflexivity.
  cbn. destruct o; cbn; by rewrite IH.
Qed.

Lemma count_ok_flags (outs : list (option exn)) :
  count_ok outs = count_true (List.map single_ok outs).
Proof.
  unfold count_ok, count_true.
  induction outs as [| o outs IHo]; [reflexivity |].
  destruct o; cbn; congruence.
Qed.

Lemma count_true_all (batch : list Politician) :
  count_true (List.map (fun _ => true) batch) = length batch.
Proof. unfold count_true. induction batch; cbn; congruence. Qed.

Lemma unflagged_all (batch : list Politician) :
  unflagged batch (List.map (fun _ => true) batch) = [].
Proof. induction batch; cbn; congruence. Qed.

Lemma outcome_accounting (batch_size : Z) (b : Z * list Politician)
    (o : BatchOutcome) :
  outcome_fits b o ->
  length (outcome_flags b o) = length (snd b)
  /\ outcome_count b o = count_true (outcome_flags b o)
  /\ failed_records (outcome_logs batch_size b o)
     = unflagged (snd b) (outcome_flags b o).
Proof.
  destruct b as [i batch].
  destruct o as [| e outs];
    cbn [outcome_fits outcome_flags outcome_count outcome_logs failed_records snd];
    intros Hfit.
  - rewrite length_map, count_true_all, unflagged_all. auto.
  - rewrite length_map, count_ok_flags, each_logs_failed. auto.
Qed.

Lemma run_accounting (batch_size : Z) (bs : list (Z * list Politician))
    (os : list BatchOutcome) :
  Forall2 outcome_fits bs os ->
  length (run_flags bs os) = length (concat (List.map snd bs))
  /\ run_count bs os = count_true (run_flags bs os)
  /\ failed_records (run_logs batch_size bs os)
     = unflagged (concat (List.map snd bs)) (run_flags bs os).
Proof.
  induction 1 as [| b o bs os Hfit _ (IHlen & IHcount & IHfailed)];
    [cbn; auto |].
  destruct (outcome_accounting batch_size b o Hfit) as (Hlen & Hcount & Hfailed).
  cbn [run_flags run_count run_logs List.map concat].
  rewrite !length_app, count_true_app, failed_records_app, unflagged_app by done.
  repeat split; congruence.
Qed.

Section PersisterRun.
Context {Ext : Type} `{Outside Ext}.

(** The whole run, batch by batch. *)
Lemma insert_politicians_batch_run (politicians : list Politician)
    (batch_size : Z) (w : World Ext) :
  (0 < batch_size)%Z ->
  exists os w',
    insert_politicians_batch politicians batch_size w
      = (Ok (Z.of_nat (run_count (batches politicians batch_size) os)), w')
    /\ Forall2 outcome_fits (batches politicians batch_size) os
    /\ history w'
       = history w ++ run_events (batches politicians batch_size) os
    /\ logs w'
       = logs w ++ run_logs batch_size (batches politicians batch_size) os.
Proof.
  intros Hb. unfold insert_politicians_batch, batches.
  destruct (batches_positive politicians batch_size Hb) as (n & -> & _).
  unfold bind at 1. unfold lift.
  destruct (for_range_run politicians batch_size
              (List.map (fun k => (Z.of_nat k * batch_size)%Z) (seq 0 n)) 0%Z w)
    as (os & w' & Hrun & Hfits & Hh & Hl).
  exists os, w'. rewrite Hrun. rewrite Z.add_0_l. auto.
Qed.

End PersisterRun.

Section PersisterClaims.
Context {Ext : Type} `{Outside Ext}.

Lemma insert_politicians_batch_accounting (politicians : list Politician)
    (batch_size : Z) (w : World Ext) :
  (0 < batch_size)%Z ->
  exists (n : Z) (w' : World Ext) (entries : list LogRecord),
    insert_politicians_batch politicians batch_size w = (Ok n, w')
    /\ (0 <= n <= Z.of_nat (length politicians))%Z
    /\ logs w' = logs w ++ entries
    /\ (n + Z.of_nat (length (failed_records entries))
        = Z.of_nat (length politicians))%Z.
Proof.
  intros Hb.
  destruct (insert_politicians_batch_run politicians batch_size w Hb)
    as (os & w' & Hrun & Hfits & _ & Hl).
  destruct (run_accounting batch_size _ _ Hfits) as (Hlen & Hcount & Hfailed).
  rewrite batches_cover in Hlen, Hfailed by done.
  pose proof (unflagged_length politicians _ (eq_sym Hlen)) as Hsum.
  exists (Z.of_nat (run_count (batches politicians batch_size) os)), w',
    (run_logs batch_size (batches politicians batch_size) os).
  rewrite Hfailed. rewrite Hcount in *. repeat split; try done; lia.
Qed.

(** C3. For every list of submitted records (and every positive batch
    size), the run returns a count [n] with [n <= len(politicians)], and
    the records split, position by position, into those counted in [n]
    and those named by the per-record error lines of the log: each record
    is on exactly one side. *)
Theorem inserted_accounts_for_every_record (politicians : list Politician)
    (batch_size : Z) (w : World Ext) :
  (0 < batch_size)%Z ->
  exists (n : Z) (w' : World Ext) (flags : list bool) (entries : list LogRecord),
    insert_politicians_batch politicians batch_size w = (Ok n, w')
    /\ (0 <= n <= Z.of_nat (length politicians))%Z
    /\ logs w' = logs w ++ entries
    /\ length flags = length politicians
    /\ n = Z.of_nat (count_true flags)
    /\ failed_records entries = unflagged politicians flags
    /\ (n + Z.of_nat (length (failed_records entries))
        = Z.of_nat (length politicians))%Z.
Proof.
  intros Hb.
  destruct (insert_politicians_batch_run politicians batch_size w Hb)
    as (os & w' & Hrun & Hfits & _ & Hl).
  destruct (run_accounting batch_size _ _ Hfits) as (Hlen & Hcount & Hfailed).
  rewrite batches_cover in Hlen, Hfailed by done.
  pose proof (unflagged_length politicians _ (eq_sym Hlen)) as Hsum.
  exists (Z.of_nat (run_count (batches politicians batch_size) os)), w',
    (run_flags (batches politicians batch_size) os),
    (run_logs batch_size (batches politicians batch_size) os).
  rewrite Hfailed. rewrite Hcount in *. repeat split; try done; lia.
Qed.

(** C4. In every run (positive batch size) each batch gets its bulk call,
    in order; a batch whose bulk call raises is followed by one call per
    record of that batch, in order, and nothing else; the count grows by
    one for each of these calls that succeeds, each one that raises leaves
    an error line with the record's name and is not counted; the run goes
    on through the remaining records and batches and returns the count. *)
Theorem failed_batch_is_retried_per_record (politicians : list Politician)
    (batch_size : Z) (w : World Ext) :
  (0 < batch_size)%Z ->
  exists (os : list BatchOutcome) (w' : World Ext),
    insert_politicians_batch politicians batch_size w
      = (Ok (Z.of_nat (run_count (batches politicians batch_size) os)), w')
    /\ concat (List.map snd (batches politicians batch_size)) = politicians
    /\ Forall2 outcome_fits (batches politicians batch_size) os
    /\ history w'
       = history w ++ run_events (batches politicians batch_size) os
    /\ logs w'
       = logs w ++ run_logs batch_size (batches politicians batch_size) os.
Proof.
  intros Hb.
  destruct (insert_politicians_batch_run politicians batch_size w Hb)
    as (os & w' & Hrun & Hfits & Hh & Hl).
  exists os, w'. repeat split; try done. by apply batches_cover.
Qed.

End PersisterClaims.

(** The specification's scenario: fifty records in one batch, the
    twenty-third rejected by the table. *)
Example scenario_one_rejected_record :
  exists w',
    insert_politicians_batch fifty 50 (start table_with_p23) = (Ok 49%Z, w')
    /\ failed_records (logs w') = [py "P23"]
    /\ history w'
       = EvInsert (Bulk fifty) false
         :: List.map (fun p => EvInsert (Single p)
                                 (negb (PyStr.eqb (get (name p) []) (py "P23"))))
              fifty
    /\ length (table (ext w')) = 50%nat.
Proof. eexists. vm_compute. repeat split; reflexivity. Qed.

Lemma inserted_accounts_for_every_record_witness :
  (0 < 50)%Z
  /\ exists n w' flags entries,
       insert_politicians_batch fifty 50 (start table_with_p23) = (Ok n, w')
       /\ (0 <= n <= Z.of_nat (length fifty))%Z
       /\ logs w' = logs (start table_with_p23) ++ entries
       /\ length flags = length fifty
       /\ n = Z.of_nat (count_true flags)
       /\ failed_records entries = unflagged fifty flags
       /\ (n + Z.of_nat (length (failed_records entries))
           = Z.of_nat (length fifty))%Z.
Proof.
  split; [lia |].
  apply (inserted_accounts_for_every_record fifty 50 (start table_with_p23)).
  lia.
Defined.

Lemma failed_batch_is_retried_per_record_witness :
  (0 < 50)%Z
  /\ exists os w',
       insert_politicians_batch fifty 50 (start table_with_p23)
         = (Ok (Z.of_nat (run_count (batches fifty 50) os)), w')
       /\ concat (List.map snd (batches fifty 50)) = fifty
       /\ Forall2 outcome_fits (batches fifty 50) os
       /\ history w'
          = history (start table_with_p23) ++ run_events (batches fifty 50) os
       /\ logs w'
          = logs (start table_with_p23) ++ run_logs 50 (batches fifty 50) os.
Proof.
  split; [lia |].
  apply (failed_batch_is_retried_per_record fifty 50 (start table_with_p23)).
  lia.
Defined.

(** ** Source adapters and entry point *)

Section Pipeline.
Context {Ext : Type} `{Outside Ext}.

Lemma quiet_app (a b : list LogRecord) : quiet a -> quiet b -> quiet (a ++ b).
Proof. unfold quiet. intros Ha Hb. by rewrite failed_records_app, Ha, Hb. Qed.

Lemma try_urls_quiet (urls : list pystr) :
  forall w, exists data w' entries,
    try_urls urls w = (Ok data, w')
    /\ logs w' = logs w ++ entries /\ quiet entries.
Proof.
  induction urls as [| url urls IH]; intros w.
  - exists None, w, []. cbn. by rewrite app_nil_r.
  - cbn [try_urls]. unfold bind at 1. unfold attempt, http_get_json.
    destruct (requests_get_json url (ext w)) as [[data | e] x].
    + eexists _, _, [(INFO, MsgUrlOk url)]. unfold bind, log, ret. cbn.
      repeat split; reflexivity.
    + unfold bind at 1. unfold log at 1. cbn [ext logs history].
      match goal with |- context [try_urls urls ?w0] =>
        destruct (IH w0) as (data & w' & entries & Hrun & Hl & Hq) end.
      exists data, w', ((WARNING, MsgUrlFailed e) :: entries).
      rewrite Hrun, Hl. cbn. rewrite <- app_assoc. repeat split; done.
Qed.

Lemma fetch_deputes_try_quiet : quietly fetch_deputes_try.
Proof.
  intros w. unfold fetch_deputes_try. unfold bind at 1.
  destruct (try_urls_quiet urls_to_try w) as (data & w1 & entries & -> & Hl & Hq).
  destruct data as [[| acteurs] |].
  - eexists _, _, entries. unfold raise. repeat split; done.
  - unfold bind at 1. unfold lift.
    destruct (for_each deputy_of_acteur acteurs) as [deputies | e].
    + eexists _, _, (entries ++ [(INFO, MsgDeputesCount (length deputies))]).
      unfold bind, log, ret. cbn [logs ext history]. rewrite Hl, <- app_assoc.
      repeat split; try done. by apply quiet_app.
    + eexists _, _, entries. repeat split; done.
  - eexists _, _, entries. unfold raise. repeat split; done.
Qed.

Lemma fetch_senateurs_try_quiet : quietly fetch_senateurs_try.
Proof.
  intros w. unfold fetch_senateurs_try. unfold bind at 1. unfold senators_csv.
  destruct (read_senators_csv (ext w)) as [[df | e] x].
  - eexists _, _, [_]. unfold bind, log, ret. cbn [logs ext history].
    repeat split; reflexivity.
  - eexists _, _, []. cbn [logs ext history]. rewrite app_nil_r.
    repeat split; reflexivity.
Qed.

Lemma fetch_maires_try_quiet : quietly fetch_maires_try.
Proof.
  intros w. unfold fetch_maires_try. unfold bind at 1. unfold mayors_csv.
  destruct (read_mayors_csv (ext w)) as [[df | e] x].
  - eexists _, _, [_]. unfold bind, log, ret. cbn [logs ext history].
    repeat split; reflexivity.
  - eexists _, _, []. cbn [logs ext history]. rewrite app_nil_r.
    repeat split; reflexivity.
Qed.

Lemma guarded_absorbs start_msg failed_msg body (w : World Ext) :
  (forall e, quiet [(ERROR, failed_msg e)]) ->
  quietly body ->
  (forall e w1,
      body (logged INFO start_msg w) = (Raise e, w1) ->
      guarded start_msg failed_msg body w
      = (Ok [], logged ERROR (failed_msg e) w1))
  /\ (forall l w1,
        body (logged INFO start_msg w) = (Ok l, w1) ->
        guarded start_msg failed_msg body w = (Ok l, w1))
  /\ exists l w' entries,
       guarded start_msg failed_msg body w = (Ok l, w')
       /\ logs w' = logs w ++ entries /\ quiet entries.
Proof.
  intros Hmsg Hbody. unfold guarded, bind, attempt, log, ret.
  fold (logged INFO start_msg w).
  split; [intros e w1 -> ; reflexivity |].
  split; [intros l w1 -> ; reflexivity |].
  destruct (Hbody (logged INFO start_msg w)) as (r & w1 & entries & -> & Hl & Hq).
  cbn [logged logs] in Hl.
  destruct r as [l | e].
  - eexists _, _, ([(INFO, start_msg)] ++ entries).
    rewrite Hl, <- app_assoc. repeat split. by apply quiet_app.
  - eexists _, _, (([(INFO, start_msg)] ++ entries) ++ [(ERROR, failed_msg e)]).
    cbn [logs]. rewrite Hl, <- !app_assoc. repeat split.
    apply quiet_app; [reflexivity |].
    apply quiet_app; [exact Hq | apply Hmsg].
Qed.

Lemma fetch_deputes_guarded :
  fetch_deputes = guarded MsgDeputesStart MsgDeputesFailed fetch_deputes_try.
Proof. reflexivity. Qed.

Lemma fetch_senateurs_guarded :
  fetch_senateurs
  = guarded MsgSenateursStart MsgSenateursFailed fetch_senateurs_try.
Proof. reflexivity. Qed.

Lemma fetch_maires_guarded :
  fetch_maires_principales_villes
  = guarded MsgMairesStart MsgMairesFailed fetch_maires_try.
Proof. reflexivity. Qed.

Lemma fetch_deputes_absorbing : absorbing fetch_deputes.
Proof.
  intros w. rewrite fetch_deputes_guarded.
  apply guarded_absorbs; [reflexivity | apply fetch_deputes_try_quiet].
Qed.

Lemma fetch_senateurs_absorbing : absorbing fetch_senateurs.
Proof.
  intros w. rewrite fetch_senateurs_guarded.
  apply guarded_absorbs; [reflexivity | apply fetch_senateurs_try_quiet].
Qed.

Lemma fetch_maires_absorbing : absorbing fetch_maires_principales_villes.
Proof.
  intros w. rewrite fetch_maires_guarded.
  apply guarded_absorbs; [reflexivity | apply fetch_maires_try_quiet].
Qed.

Lemma fetch_ministres_run (w : World Ext) :
  fetch_ministres_gouvernement_bayrou w
  = (Ok (List.map _assign_visual_elements ministres),
     logged INFO (MsgMinistresCount
                    (length (List.map _assign_visual_elements ministres)))
       (logged INFO MsgMinistresStart w)).
Proof. reflexivity. Qed.

Lemma bind_ok {A B} (m : M Ext A) (k : A -> M Ext B) (w w' : World Ext) (a : A) :
  m w = (Ok a, w') -> bind m k w = k a w'.
Proof. unfold bind. by intros ->. Qed.

Lemma log_run (lvl : Level) (msg : Message) (w : World Ext) :
  log lvl msg w = (Ok tt, logged lvl msg w).
Proof. reflexivity. Qed.

(** The entry point, adapter by adapter, on the worlds of this model, whose
    cells are strings: there the deduplicator does not raise. *)
Lemma populate_database_run (w : World Ext) :
  exists d s m y w1 w2 w3 w4 n w' entries,
    fetch_deputes (logged INFO MsgStart w) = (Ok d, w1)
    /\ fetch_senateurs w1 = (Ok s, w2)
    /\ fetch_ministres_gouvernement_bayrou w2 = (Ok m, w3)
    /\ fetch_maires_principales_villes w3 = (Ok y, w4)
    /\ populate_database w = (Ok n, w')
    /\ logs w' = logs w ++ entries
    /\ In (INFO, MsgTotalCleaned
                   (length (_clean_and_deduplicate (d ++ s ++ m ++ y))))
          entries
    /\ (0 <= n <= Z.of_nat (length (_clean_and_deduplicate (d ++ s ++ m ++ y))))%Z
    /\ (n + Z.of_nat (length (failed_records entries))
        = Z.of_nat (length (_clean_and_deduplicate (d ++ s ++ m ++ y))))%Z.
Proof.
  destruct (fetch_deputes_absorbing (logged INFO MsgStart w))
    as (d & w1 & e1 & Hd & Hl1 & Hq1).
  destruct (fetch_senateurs_absorbing w1) as (s & w2 & e2 & Hs & Hl2 & Hq2).
  pose proof (fetch_ministres_run w2) as Hm.
  remember (List.map _assign_visual_elements ministres) as m eqn:Hmdef.
  remember (logged INFO (MsgMinistresCount (length m))
              (logged INFO MsgMinistresStart w2)) as w3 eqn:Hw3.
  assert (Hl3 : logs w3 = logs w2 ++ [(INFO, MsgMinistresStart);
                                      (INFO, MsgMinistresCount (length m))]).
  { rewrite Hw3. cbn [logged logs]. rewrite <- app_assoc. reflexivity. }
  destruct (fetch_maires_absorbing w3) as (y & w4 & e4 & Hy & Hl4 & Hq4).
  remember (_clean_and_deduplicate (d ++ s ++ m ++ y)) as cleaned eqn:Hcleaned.
  remember (logged INFO (MsgTotalCleaned (length cleaned)) w4) as w5 eqn:Hw5.
  pose (before := (([(INFO, MsgStart)] ++ e1) ++ e2)
                  ++ ([(INFO, MsgMinistresStart);
                       (INFO, MsgMinistresCount (length m))] ++ e4)).
  assert (Hl5 : logs w5
                = logs w ++ before ++ [(INFO, MsgTotalCleaned (length cleaned))]).
  { rewrite Hw5. cbn [logged logs]. rewrite Hl4, Hl3, Hl2, Hl1.
    cbn [logged logs]. unfold before. rewrite <- !app_assoc. reflexivity. }
  assert (Hquiet : quiet before).
  { unfold before. apply quiet_app; [apply quiet_app; [apply quiet_app |] |
                                     apply quiet_app];
      first [assumption | reflexivity]. }
  assert (Hpre : populate_database w
                 = match cleaned with
                   | _ :: _ =>
                       (inserted_count <- insert_politicians_batch cleaned 50%Z ;;
                        log INFO (MsgDone inserted_count (length cleaned)) ;;;
                        ret inserted_count) w5
                   | [] => (log WARNING MsgNothing ;;; ret 0%Z) w5
                   end).
  { unfold populate_database.
    rewrite (bind_ok _ _ _ _ _ (log_run INFO MsgStart w)).
    rewrite (bind_ok _ _ _ _ _ Hd), (bind_ok _ _ _ _ _ Hs),
      (bind_ok _ _ _ _ _ Hm), (bind_ok _ _ _ _ _ Hy).
    cbv zeta. rewrite <- Hcleaned.
    rewrite (bind_ok _ _ _ _ _ (log_run INFO (MsgTotalCleaned (length cleaned)) w4)).
    rewrite <- Hw5. destruct cleaned; reflexivity. }
  exists d, s, m, y, w1, w2, w3, w4.
  rewrite <- Hcleaned. clear Hcleaned Hmdef Hw3 Hw5.
  destruct cleaned as [| p cleaned'].
  - exists 0%Z, (logged WARNING MsgNothing w5),
      (before ++ [(INFO, MsgTotalCleaned 0%nat); (WARNING, MsgNothing)]).
    rewrite Hpre.
    split; [exact Hd |]. split; [exact Hs |]. split; [exact Hm |].
    split; [exact Hy |]. split; [reflexivity |].
    split; [cbn [logged logs length]; rewrite Hl5, <- !app_assoc; reflexivity |].
    split; [apply in_or_app; right; left; reflexivity |].
    split; [cbn [length]; lia |].
    rewrite failed_records_app. unfold quiet in Hquiet. rewrite Hquiet.
    reflexivity.
  - destruct (insert_politicians_batch_accounting (p :: cleaned') 50 w5 ltac:(lia))
      as (n & w6 & ep & Hrun & Hbound & Hl6 & Hsum).
    exists n, (logged INFO (MsgDone n (length (p :: cleaned'))) w6),
      (before
       ++ [(INFO, MsgTotalCleaned (length (p :: cleaned')))]
       ++ ep ++ [(INFO, MsgDone n (length (p :: cleaned')))]).
    rewrite Hpre.
    rewrite (bind_ok _ _ _ _ _ Hrun).
    rewrite (bind_ok _ _ _ _ _ (log_run INFO _ w6)). unfold ret.
    split; [exact Hd |]. split; [exact Hs |]. split; [exact Hm |].
    split; [exact Hy |]. split; [reflexivity |].
    split; [cbn [logged logs]; rewrite Hl6, Hl5, <- !app_assoc; reflexivity |].
    split; [apply in_or_app; right; left; reflexivity |].
    split; [exact Hbound |].
    rewrite !failed_records_app. unfold quiet in Hquiet. rewrite Hquiet.
    cbn [failed_records app]. rewrite app_nil_r. exact Hsum.
Qed.

End Pipeline.

Section PipelineClaims.
Context {Ext : Type} `{Outside Ext}.

(** C5 (amended). The constructor raises [ValueError] when a credential
    is missing or empty, and whatever its outcome it leaves the world as it
    was: no source was read and no insertion was sent.  A failure inside
    the [try] block of an adapter is turned into the empty list and one
    line in the log, written at level ERROR; every adapter returns a list,
    so no failure of an adapter reaches [populate_database], which runs its
    four adapters in turn, each from the world the one before left, and
    goes on with the concatenation of what they returned. *)
Theorem configuration_error_and_absorbed_failures :
  (forall environ (w : World Ext),
      get (SUPABASE_URL environ) [] = []
      \/ get (SUPABASE_ANON_KEY environ) [] = [] ->
      __init__ environ w = (Raise ValueError, w))
  /\ (forall environ (w : World Ext) r w',
        __init__ environ w = (r, w') -> w' = w /\ history w' = history w)
  /\ (forall environ (w : World Ext) e w',
        __init__ environ w = (Raise e, w') ->
        e = ValueError
        \/ create_client (get (SUPABASE_URL environ) [])
             (get (SUPABASE_ANON_KEY environ) []) = Some e)
  /\ (forall (w : World Ext) e w1,
        fetch_deputes_try (logged INFO MsgDeputesStart w) = (Raise e, w1) ->
        fetch_deputes w = (Ok [], logged ERROR (MsgDeputesFailed e) w1))
  /\ (forall (w : World Ext) e w1,
        fetch_senateurs_try (logged INFO MsgSenateursStart w) = (Raise e, w1) ->
        fetch_senateurs w = (Ok [], logged ERROR (MsgSenateursFailed e) w1))
  /\ (forall (w : World Ext) e w1,
        fetch_maires_try (logged INFO MsgMairesStart w) = (Raise e, w1) ->
        fetch_maires_principales_villes w
        = (Ok [], logged ERROR (MsgMairesFailed e) w1))
  /\ (forall (w : World Ext),
        (exists l w', fetch_deputes w = (Ok l, w'))
        /\ (exists l w', fetch_senateurs w = (Ok l, w'))
        /\ (exists l w', fetch_ministres_gouvernement_bayrou w = (Ok l, w'))
        /\ (exists l w', fetch_maires_principales_villes w = (Ok l, w')))
  /\ (forall (w : World Ext),
        exists d s m y w1 w2 w3 w4,
          fetch_deputes (logged INFO MsgStart w) = (Ok d, w1)
          /\ fetch_senateurs w1 = (Ok s, w2)
          /\ fetch_ministres_gouvernement_bayrou w2 = (Ok m, w3)
          /\ fetch_maires_principales_villes w3 = (Ok y, w4)
          /\ populate_database w = clean_and_persist (d ++ s ++ m ++ y) w4).
Proof.
  split.
  { intros environ w Hmissing. unfold __init__.
    destruct Hmissing as [-> | ->]; cbn [truthy negb orb];
      [| rewrite orb_true_r]; reflexivity. }
  split.
  { intros environ w r w'. unfold __init__.
    destruct (_ || _); [unfold raise; intros [= _ <-]; auto |].
    destruct (create_client _ _); unfold raise, ret; intros [= _ <-]; auto. }
  split.
  { intros environ w e w'. unfold __init__.
    destruct (_ || _); [unfold raise; intros [= <- _]; auto |].
    destruct (create_client _ _) as [e' |]; unfold raise, ret;
      [intros [= <- _]; auto | discriminate]. }
  split.
  { intros w e w1. rewrite fetch_deputes_guarded.
    apply guarded_absorbs; [reflexivity | apply fetch_deputes_try_quiet]. }
  split.
  { intros w e w1. rewrite fetch_senateurs_guarded.
    apply guarded_absorbs; [reflexivity | apply fetch_senateurs_try_quiet]. }
  split.
  { intros w e w1. rewrite fetch_maires_guarded.
    apply guarded_absorbs; [reflexivity | apply fetch_maires_try_quiet]. }
  split.
  { intros w.
    destruct (fetch_deputes_absorbing w) as (l1 & w1 & _ & H1 & _).
    destruct (fetch_senateurs_absorbing w) as (l2 & w2 & _ & H2 & _).
    destruct (fetch_maires_absorbing w) as (l4 & w4 & _ & H4 & _).
    split; [exists l1, w1; exact H1 |].
    split; [exists l2, w2; exact H2 |].
    split; [eexists _, _; apply fetch_ministres_run |].
    exists l4, w4; exact H4. }
  intros w.
  destruct (fetch_deputes_absorbing (logged INFO MsgStart w))
    as (d & w1 & _ & Hd & _).
  destruct (fetch_senateurs_absorbing w1) as (s & w2 & _ & Hs & _).
  pose proof (fetch_ministres_run w2) as Hm.
  remember (List.map _assign_visual_elements ministres) as m eqn:Hmdef.
  remember (logged INFO (MsgMinistresCount (length m))
              (logged INFO MsgMinistresStart w2)) as w3 eqn:Hw3.
  destruct (fetch_maires_absorbing w3) as (y & w4 & _ & Hy & _).
  exists d, s, m, y, w1, w2, w3, w4.
  split; [exact Hd |]. split; [exact Hs |]. split; [exact Hm |].
  split; [exact Hy |].
  unfold populate_database.
  rewrite (bind_ok _ _ _ _ _ (log_run INFO MsgStart w)).
  rewrite (bind_ok _ _ _ _ _ Hd), (bind_ok _ _ _ _ _ Hs),
    (bind_ok _ _ _ _ _ Hm), (bind_ok _ _ _ _ _ Hy).
  reflexivity.
Qed.

(** C8 (amended). Every run of [populate_database] that returns, returns
    one integer, the inserted count [n], with
    [0 <= n <= len(cleaned_politicians)] (so 0 when nothing survives
    deduplication), whatever failed in the adapters or in the table; the
    total after deduplication is written to the log only, and so are the
    failed records, as many as the entities that are not counted. *)
Theorem populate_database_returns_inserted_count (w : World Ext) (n : Z)
    (w' : World Ext) :
  populate_database w = (Ok n, w') ->
  exists (entries : list LogRecord) (cleaned_politicians : list Politician),
    logs w' = logs w ++ entries
    /\ (exists d s y,
          cleaned_politicians
          = _clean_and_deduplicate
              (d ++ s ++ List.map _assign_visual_elements ministres ++ y))
    /\ In (INFO, MsgTotalCleaned (length cleaned_politicians)) entries
    /\ (0 <= n <= Z.of_nat (length cleaned_politicians))%Z
    /\ (cleaned_politicians = [] -> n = 0%Z)
    /\ (n + Z.of_nat (length (failed_records entries))
        = Z.of_nat (length cleaned_politicians))%Z.
Proof.
  intros Hreturns.
  destruct (populate_database_run w)
    as (d & s & m & y & w1 & w2 & w3 & w4 & n0 & w0 & entries
        & _ & _ & Hm & _ & Hrun & Hl & Htotal & Hbound & Hsum).
  rewrite Hrun in Hreturns. injection Hreturns as -> ->.
  rewrite fetch_ministres_run in Hm.
  assert (Hmeq : m = List.map _assign_visual_elements ministres) by congruence.
  clear Hm. subst m.
  exists entries,
    (_clean_and_deduplicate
       (d ++ s ++ List.map _assign_visual_elements ministres ++ y)).
  split; [exact Hl |].
  split; [exists d, s, y; reflexivity |].
  split; [exact Htotal |]. split; [exact Hbound |].
  split; [| exact Hsum].
  intros Hnil.
  assert (Hlen : length (_clean_and_deduplicate
                           (d ++ s ++ List.map _assign_visual_elements ministres ++ y))
                 = 0%nat) by (rewrite Hnil; reflexivity).
  lia.
Qed.

End PipelineClaims.

Lemma configuration_error_and_absorbed_failures_witness :
  __init__ (mkEnviron None (Some (py "anon-key"))) (start sim_no_source)
  = (Raise ValueError, start sim_no_source)
  /\ exists l w', fetch_senateurs (start sim_no_source) = (Ok l, w').
Proof.
  destruct (configuration_error_and_absorbed_failures (Ext := Sim))
    as (Hinit & _ & _ & _ & _ & _ & Hadapters & _).
  split.
  - apply Hinit. left. reflexivity.
  - apply (Hadapters (start sim_no_source)).
Defined.

(** C5, as stated, fails: with every remote source down, the failure of
    the senators' adapter and the one of the mayors' adapter are absorbed as
    the empty list, but what each of them logs is one line at level ERROR:
    the log holds no warning. *)
Lemma adapter_failure_is_logged_at_error_counterexample :
  exists e w1 e' w2,
    fetch_senateurs (start sim_no_source) = (Ok [], w1)
    /\ logs w1 = [(INFO, MsgSenateursStart); (ERROR, MsgSenateursFailed e)]
    /\ warnings (logs w1) = []
    /\ fetch_maires_principales_villes (start sim_no_source) = (Ok [], w2)
    /\ logs w2 = [(INFO, MsgMairesStart); (ERROR, MsgMairesFailed e')]
    /\ warnings (logs w2) = [].
Proof. eexists _, _, _, _. vm_compute. repeat split; reflexivity. Qed.

Lemma populate_database_returns_inserted_count_witness :
  exists w',
    populate_database (start sim_conflict) = (Ok 9%Z, w')
    /\ exists entries cleaned_politicians,
         logs w' = logs (start sim_conflict) ++ entries
         /\ (exists d s y,
               cleaned_politicians
               = _clean_and_deduplicate
                   (d ++ s ++ List.map _assign_visual_elements ministres ++ y))
         /\ In (INFO, MsgTotalCleaned (length cleaned_politicians)) entries
         /\ (0 <= 9 <= Z.of_nat (length cleaned_politicians))%Z
         /\ (cleaned_politicians = [] -> 9%Z = 0%Z)
         /\ (9 + Z.of_nat (length (failed_records entries))
             = Z.of_nat (length cleaned_politicians))%Z.
Proof.
  assert (Hrun : exists w',
             populate_database (start sim_conflict) = (Ok 9%Z, w'))
    by (eexists; vm_compute; reflexivity).
  destruct Hrun as [w' Hrun]. exists w'. split; [exact Hrun |].
  exact (populate_database_returns_inserted_count _ _ _ Hrun).
Defined.

(** C8, as stated, fails: two runs return the same value although their
    failed records and their totals after deduplication differ, so the
    returned value holds neither. *)
Lemma summary_object_counterexample :
  exists wA wB,
    populate_database (start sim_conflict) = (Ok 9%Z, wA)
    /\ populate_database (start sim_no_source) = (Ok 9%Z, wB)
    /\ failed_records (logs wA) = [py "Jean Dupont"]
    /\ failed_records (logs wB) = []
    /\ cleaned_totals (logs wA) = [10%nat]
    /\ cleaned_totals (logs wB) = [9%nat].
Proof. eexists. eexists. vm_compute. repeat split; reflexivity. Qed.

(** ** Styling of the sources *)

Lemma styler_styles (p : Politician) : styled (_assign_visual_elements p).
Proof.
  unfold styled, _assign_visual_elements.
  destruct (credibility_style _) as [[e b] l].
  destruct (role_style _ _) as [hl cr].
  cbn [card_color cartoon_expression credibility_badge credibility_label
       highlight crown].
  repeat split; discriminate.
Qed.

Lemma clean_fields_keeps_presentation (p : Politician) :
  (unstyled p -> unstyled (clean_fields p))
  /\ (styled p -> styled (clean_fields p)).
Proof. split; intros Hp; exact Hp. Qed.

(** C9. The deputies are the exception: [fetch_deputes] builds its entities
    without calling the styler, so a deputy reaches the deduplicator, and
    then the table, with none of the six presentation fields, while the
    entities of the three other adapters carry them all. *)
Theorem deputies_bypass_styler :
  (forall a p, deputy_of_acteur a = Ok p -> unstyled p)
  /\ (forall row, styled (senator_of_row row))
  /\ (forall row, styled (mayor_of_row row))
  /\ Forall styled (List.map _assign_visual_elements ministres)
  /\ exists deputy senator w1 w2 w',
       fetch_deputes (logged INFO MsgStart (start sim_deputy))
       = (Ok [deputy], w1)
       /\ fetch_senateurs w1 = (Ok [senator], w2)
       /\ unstyled deputy /\ styled senator
       /\ populate_database (start sim_deputy) = (Ok 11%Z, w')
       /\ _clean_and_deduplicate
            ([deputy] ++ [senator]
             ++ List.map _assign_visual_elements ministres ++ [])
          = clean_fields deputy :: clean_fields senator
            :: List.map clean_fields
                 (List.map _assign_visual_elements ministres)
       /\ unstyled (clean_fields deputy)
       /\ history w'
          = [EvGet (base_url ++ py "/17/amo/deputes/AMO30_deputes_actifs_mandats_actifs_organes_divises.json");
             EvSenatorsCsv; EvMayorsCsv;
             EvInsert
               (Bulk (clean_fields deputy :: clean_fields senator
                      :: List.map clean_fields
                           (List.map _assign_visual_elements ministres)))
               true].
Proof.
  split.
  { intros a p. unfold deputy_of_acteur.
    destruct (get (mandat a) _) as [| m ms]; [discriminate |].
    intros [= <-]. repeat split. }
  split; [intros row; apply styler_styles |].
  split; [intros row; apply styler_styles |].
  split.
  { apply Forall_forall. intros x Hx.
    apply list_elem_of_fmap in Hx as (p & -> & _). apply styler_styles. }
  eexists _, _, _, _, _.
  split; [vm_compute; reflexivity |].
  split; [vm_compute; reflexivity |].
  split; [repeat split |].
  split; [repeat split; discriminate |].
  split; [vm_compute; reflexivity |].
  split; [vm_compute; reflexivity |].
  split; [repeat split |].
  vm_compute; reflexivity.
Qed.

(** * Further properties of the code *)

(** ** Classifier and styler *)

Lemma first_match_In {V} (table : list (pystr * V)) (s : pystr) (v : V) :
  first_match table s = Some v -> In v (List.map snd table).
Proof.
  induction table as [| [k v'] table IH]; cbn; [discriminate |].
  destruct (contains s k); [intros [= ->]; by left | right; by apply IH].
Qed.

(** X1. Whatever the party label, the classifier answers one of the five
    orientation values. *)
Theorem orientation_in_five_values (party_ : pystr) :
  In (_determine_orientation party_) five_orientations.
Proof.
  assert (Hcenter : In (py "center") five_orientations)
    by (right; right; left; reflexivity).
  assert (Htable : forall v, In v (List.map snd orientations) ->
                             In v five_orientations).
  { apply List.Forall_forall.
    repeat (constructor; [cbn [In five_orientations]; auto 10 |]).
    constructor. }
  unfold _determine_orientation.
  destruct (negb (truthy party_)); [exact Hcenter |].
  destruct (first_match orientations (lower party_)) as [o |] eqn:Hm;
    [| exact Hcenter].
  apply Htable. by apply first_match_In in Hm.
Qed.


Lemma styled_card_color (p : Politician) :
  card_color (_assign_visual_elements p)
  = Some (dict_get orientation_colors
            (get (political_orientation p) (py "center")) (py "#1E3A8A")).
Proof.
  unfold _assign_visual_elements.
  destruct (credibility_style _) as [[e b] l].
  destruct (role_style _ _) as [hl cr]. reflexivity.
Qed.

Lemma styled_role (p : Politician) :
  (highlight (_assign_visual_elements p), crown (_assign_visual_elements p))
  = (let '(hl, cr) := role_style role_styles (position p) in (Some hl, Some cr)).
Proof.
  unfold _assign_visual_elements.
  destruct (credibility_style _) as [[e b] l].
  destruct (role_style _ _) as [hl cr]. reflexivity.
Qed.

Lemma dict_get_range {V} (items : list (pystr * V)) (key : pystr) (default : V) :
  (dict_get items key default = default /\ ~ In key (List.map fst items))
  \/ In (key, dict_get items key default) items.
Proof.
  induction items as [| [k v] items IH]; cbn; [left; tauto |].
  unfold PyStr.eqb. destruct (bool_decide_reflect (k = key)) as [-> | Hne].
  - right. by left.
  - destruct IH as [[Hd Hn] | Hin]; [left | right; by right].
    split; [exact Hd | intros [Hk | Hk]; [congruence | tauto]].
Qed.

Lemma color_of_orientation (o c : pystr) :
  In (o, c) orientation_colors -> In o five_orientations /\ In c five_colors.
Proof.
  intros Hin.
  assert (Hall : Forall (fun oc => In (fst oc) five_orientations
                                   /\ In (snd oc) five_colors) orientation_colors).
  { repeat (constructor;
            [split; cbn [In five_orientations five_colors fst snd]; auto 10 |]).
    constructor. }
  exact (proj1 (List.Forall_forall _ _) Hall (o, c) Hin).
Qed.

Lemma orientation_colors_injective (o1 o2 c : pystr) :
  In (o1, c) orientation_colors -> In (o2, c) orientation_colors -> o1 = o2.
Proof.
  intros H1 H2. cbn [In orientation_colors] in H1, H2.
  repeat match goal with
         | H : _ \/ _ |- _ => destruct H as [H | H]
         | H : False |- _ => destruct H
         end;
    injection H1 as <- Hc1; injection H2 as <- Hc2;
    first [reflexivity | exfalso; rewrite <- Hc2 in Hc1; vm_compute in Hc1; discriminate].
Qed.

(** X2. The card colour is always one of the five fixed colours; a missing
    or unknown orientation gets the colour of [center]; and two known
    orientations never share a colour. *)
Theorem card_color_of_orientation (p : Politician) :
  exists c,
    card_color (_assign_visual_elements p) = Some c
    /\ In c five_colors
    /\ (political_orientation p = None -> c = py "#1E3A8A")
    /\ (forall o, political_orientation p = Some o ->
                  ~ In o five_orientations -> c = py "#1E3A8A")
    /\ (forall o q o',
          political_orientation p = Some o -> In o five_orientations ->
          political_orientation q = Some o' -> In o' five_orientations ->
          card_color (_assign_visual_elements q) = Some c -> o = o').
Proof.
  eexists. split; [apply styled_card_color |].
  assert (Hdefault : In (py "#1E3A8A") five_colors)
    by (right; right; left; reflexivity).
  assert (Hkeys : forall o, In o (List.map fst orientation_colors) <->
                            In o five_orientations) by (intros o; reflexivity).
  split.
  { destruct (dict_get_range orientation_colors
                (get (political_orientation p) (py "center")) (py "#1E3A8A"))
      as [[-> _] | Hin]; [exact Hdefault |].
    exact (proj2 (color_of_orientation _ _ Hin)). }
  split; [intros ->; reflexivity |].
  split.
  { intros o -> Hunknown. cbn [get].
    destruct (dict_get_range orientation_colors o (py "#1E3A8A"))
      as [[-> _] | Hin]; [reflexivity |].
    destruct (Hunknown (proj1 (color_of_orientation _ _ Hin))). }
  intros o q o' -> Ho Hq Ho' Hc.
  rewrite styled_card_color, Hq in Hc. unfold get in Hc |- *.
  destruct (dict_get_range orientation_colors o (py "#1E3A8A"))
    as [[_ Hn] | Hin]; [destruct (Hn (proj2 (Hkeys o) Ho)) |].
  destruct (dict_get_range orientation_colors o' (py "#1E3A8A"))
    as [[_ Hn] | Hin']; [destruct (Hn (proj2 (Hkeys o') Ho')) |].
  assert (Heq : dict_get orientation_colors o' (py "#1E3A8A")
                = dict_get orientation_colors o (py "#1E3A8A")) by congruence.
  rewrite Heq in Hin'.
  exact (eq_sym (orientation_colors_injective _ _ _ Hin' Hin)).
Qed.

Lemma card_color_of_orientation_witness :
  card_color
    (_assign_visual_elements
       {| name := None; first_name := None; last_name := None;
          party := None; position := []; political_orientation := None;
          credibility_score := None; avatar_url := None;
          card_color := None; cartoon_expression := None;
          credibility_badge := None; credibility_label := None;
          highlight := None; crown := None |})
  = Some (py "#1E3A8A").
Proof.
  destruct (card_color_of_orientation
              {| name := None; first_name := None; last_name := None;
                 party := None; position := []; political_orientation := None;
                 credibility_score := None; avatar_url := None;
                 card_color := None; cartoon_expression := None;
                 credibility_badge := None; credibility_label := None;
                 highlight := None; crown := None |})
    as (c & Hc & _ & Hnone & _).
  rewrite Hc, (Hnone eq_refl). reflexivity.
Defined.

(** The role loop on the table of the code, test by test. *)
Lemma role_style_cases (position_ : pystr) :
  role_style role_styles position_ =
    if matches_role position_ (py "Premier ministre") then (true, py "👑")
    else if matches_role position_ (py "Ministre d'État") then (true, py "⭐")
    else if matches_role position_ (py "Député") then (false, py "🗳️")
    else if matches_role position_ (py "Sénateur") then (false, py "🏛️")
    else if matches_role position_ (py "Maire") then (false, py "🏙️")
    else (false, py "👤").
Proof. reflexivity. Qed.

(** X3. An entity is highlighted exactly when its position contains,
    whatever the case, "premier ministre" or "ministre d'état"; it gets the
    default crown 👤 exactly when its position contains none of the five
    role keywords; and the first keyword of the table that occurs decides:
    "premier ministre" gives 👑 even when other keywords occur too. *)
Theorem role_emphasis (p : Politician) :
  highlight (_assign_visual_elements p)
  = Some (matches_role (position p) (py "Premier ministre")
          || matches_role (position p) (py "Ministre d'État"))
  /\ (crown (_assign_visual_elements p) = Some (py "👤")
      <-> forall role, In role (List.map fst role_styles) ->
                       matches_role (position p) role = false)
  /\ (matches_role (position p) (py "Premier ministre") = true ->
      crown (_assign_visual_elements p) = Some (py "👑")).
Proof.
  pose proof (styled_role p) as Hrole.
  rewrite role_style_cases in Hrole.
  assert (Hroles : forall P : pystr -> Prop,
             (forall role, In role (List.map fst role_styles) -> P role)
             <-> P (py "Premier ministre") /\ P (py "Ministre d'État")
                 /\ P (py "Député") /\ P (py "Sénateur") /\ P (py "Maire")).
  { intros P. split.
    - intros Hall. repeat split; apply Hall; cbn [In List.map role_styles fst];
        auto 10.
    - intros (H1 & H2 & H3 & H4 & H5) role Hin.
      cbn [In List.map role_styles fst] in Hin.
      repeat destruct Hin as [<- | Hin]; try assumption. destruct Hin. }
  rewrite (Hroles (fun role => matches_role (position p) role = false)).
  destruct (matches_role (position p) (py "Premier ministre"));
    [| destruct (matches_role (position p) (py "Ministre d'État"));
       [| destruct (matches_role (position p) (py "Député"));
          [| destruct (matches_role (position p) (py "Sénateur"));
             [| destruct (matches_role (position p) (py "Maire"))]]]];
    injection Hrole as -> ->; cbn [orb].
  all: split; [reflexivity |].
  all: split; [| intros Ht; first [reflexivity | discriminate]].
  all: first
         [ solve [split;
                  [intros Hc; exfalso; vm_compute in Hc; discriminate
                  | intros (H1 & H2 & H3 & H4 & H5); discriminate]]
         | solve [split; [intros _; repeat split | reflexivity]] ].
Qed.

Lemma role_emphasis_witness :
  crown (_assign_visual_elements (nth 0 ministres unscored)) = Some (py "👑").
Proof.
  destruct (role_emphasis (nth 0 ministres unscored)) as (_ & _ & Hpm).
  apply Hpm. vm_compute. reflexivity.
Defined.

(** The styler as one record, without pattern matching. *)
Lemma styled_unfold (p : Politician) :
  _assign_visual_elements p =
  {| name := name p;
     first_name := first_name p;
     last_name := last_name p;
     party := party p;
     position := position p;
     political_orientation := political_orientation p;
     credibility_score := credibility_score p;
     avatar_url :=
       Some (dict_get avatar_mapping
               (strip (lower (get (first_name p) [] ++ [SPACE]
                              ++ get (last_name p) []))) None);
     card_color :=
       Some (dict_get orientation_colors
               (get (political_orientation p) (py "center")) (py "#1E3A8A"));
     cartoon_expression :=
       Some (fst (fst (credibility_style (get (credibility_score p) 100%Z))));
     credibility_badge :=
       Some (snd (fst (credibility_style (get (credibility_score p) 100%Z))));
     credibility_label :=
       Some (snd (credibility_style (get (credibility_score p) 100%Z)));
     highlight := Some (fst (role_style role_styles (position p)));
     crown := Some (snd (role_style role_styles (position p))) |}.
Proof.
  unfold _assign_visual_elements.
  destruct (credibility_style _) as [[e b] l].
  destruct (role_style _ _) as [hl cr]. reflexivity.
Qed.

(** X4. The styler reads only fields it does not write: it leaves the
    identity, classification and score fields as they were, and styling an
    entity twice gives the same entity as styling it once. *)
Theorem styler_idempotent (p : Politician) :
  _assign_visual_elements (_assign_visual_elements p)
  = _assign_visual_elements p
  /\ name (_assign_visual_elements p) = name p
  /\ first_name (_assign_visual_elements p) = first_name p
  /\ last_name (_assign_visual_elements p) = last_name p
  /\ party (_assign_visual_elements p) = party p
  /\ position (_assign_visual_elements p) = position p
  /\ political_orientation (_assign_visual_elements p) = political_orientation p
  /\ credibility_score (_assign_visual_elements p) = credibility_score p.
Proof.
  split; [| rewrite styled_unfold; repeat split; reflexivity].
  rewrite (styled_unfold (_assign_visual_elements p)).
  rewrite (styled_unfold p).
  cbn [name first_name last_name party position political_orientation
       credibility_score].
  reflexivity.
Qed.

(** X5. Whatever the row, a senator is built with score 80 and gets the
    high styling, and a mayor is built with score 70 and gets the medium
    styling. *)
Theorem source_default_tiers (srow : SenatorRow) (mrow : MayorRow) :
  credibility_score (senator_of_row srow) = Some 80%Z
  /\ has_tier (senator_of_row srow) high
  /\ credibility_score (mayor_of_row mrow) = Some 70%Z
  /\ has_tier (mayor_of_row mrow) medium.
Proof.
  unfold senator_of_row, mayor_of_row.
  split; [rewrite styled_unfold; reflexivity |].
  split; [apply has_tier_of_style; reflexivity |].
  split; [rewrite styled_unfold; reflexivity |].
  apply has_tier_of_style; reflexivity.
Qed.

Lemma lower_app (s t : pystr) : lower (s ++ t) = lower s ++ lower t.
Proof. unfold lower. apply flat_map_app. Qed.

Lemma startswith_app (s t : pystr) : startswith (s ++ t) s = true.
Proof.
  induction s as [| c s IH]; [by destruct t |].
  cbn. by rewrite N.eqb_refl.
Qed.

Lemma contains_prefix (s t : pystr) : contains (s ++ t) s = true.
Proof.
  pose proof (startswith_app s t) as Hsw.
  destruct (s ++ t) as [| c r]; cbn [contains]; by rewrite Hsw.
Qed.

(** X6. Role emphasis of the sources: every senator gets the crown 🏛️ and
    no highlight; every mayor, whose position starts with "Maire de ", gets
    one of the role crowns and never the default 👤. *)
Theorem source_role_emphasis (srow : SenatorRow) (mrow : MayorRow) :
  crown (senator_of_row srow) = Some (py "🏛️")
  /\ highlight (senator_of_row srow) = Some false
  /\ matches_role (position (mayor_of_row mrow)) (py "Maire") = true
  /\ crown (mayor_of_row mrow) <> Some (py "👤").
Proof.
  unfold senator_of_row, mayor_of_row. rewrite !styled_unfold.
  cbn [crown highlight position new_politician].
  split; [reflexivity |]. split; [reflexivity |].
  assert (Hmaire : matches_role (py "Maire de " ++ get (may_commune mrow) [])
                     (py "Maire") = true).
  { unfold matches_role. rewrite lower_app.
    change (lower (py "Maire de ")) with (lower (py "Maire") ++ py " de ").
    rewrite <- app_assoc. apply contains_prefix. }
  split; [exact Hmaire |].
  rewrite role_style_cases, Hmaire.
  repeat match goal with
         | |- context [if ?b then _ else _] => destruct b
         end;
    cbn [snd]; intros Hc; vm_compute in Hc; discriminate.
Qed.

(** ** Trimming *)

Lemma lstrip_length (s : pystr) : (length (lstrip s) <= length s)%nat.
Proof.
  induction s as [| c s IH]; [reflexivity |].
  cbn. destruct (isspace c); cbn; lia.
Qed.

Lemma lstrip_fixed_head (c : codepoint) (s : pystr) :
  lstrip (c :: s) = c :: s -> isspace c = false.
Proof.
  cbn. destruct (isspace c); [| reflexivity].
  intros Heq. pose proof (lstrip_length s) as Hlen.
  rewrite Heq in Hlen. cbn in Hlen. lia.
Qed.

Lemma lstrip_idempotent (s : pystr) : lstrip (lstrip s) = lstrip s.
Proof.
  induction s as [| c s IH]; [reflexivity |].
  cbn. destruct (isspace c) eqn:Hc; [exact IH |].
  cbn. by rewrite Hc.
Qed.

Lemma lstrip_suffix (s : pystr) : exists sp, s = sp ++ lstrip s.
Proof.
  induction s as [| c s [sp IH]]; [by exists [] |].
  cbn. destruct (isspace c); [| by exists []].
  exists (c :: sp). cbn. by rewrite <- IH.
Qed.

Lemma strip_trimmed (s : pystr) : trimmed (strip s).
Proof.
  unfold trimmed, strip, rstrip. rewrite rev_involutive.
  split; [| apply lstrip_idempotent].
  destruct (lstrip_suffix (rev (lstrip s))) as [sp Hsp].
  destruct (rev (lstrip (rev (lstrip s)))) as [| c r] eqn:Hr; [reflexivity |].
  apply (f_equal (@rev _)) in Hsp.
  rewrite rev_involutive, rev_app_distr, Hr in Hsp. cbn in Hsp.
  pose proof (lstrip_idempotent s) as Hidem. rewrite Hsp in Hidem.
  apply lstrip_fixed_head in Hidem. cbn. by rewrite Hidem.
Qed.

Lemma strip_of_trimmed (s : pystr) : trimmed s -> strip s = s.
Proof.
  intros [Hl Hr]. unfold strip, rstrip. rewrite Hl, Hr. apply rev_involutive.
Qed.

Lemma strip_idempotent (s : pystr) : strip (strip s) = strip s.
Proof. apply strip_of_trimmed, strip_trimmed. Qed.

Lemma clean_fields_idempotent (p : Politician) :
  clean_fields (clean_fields p) = clean_fields p.
Proof.
  unfold clean_fields.
  cbn [name first_name last_name party position political_orientation
       credibility_score avatar_url card_color cartoon_expression
       credibility_badge credibility_label highlight crown get].
  by rewrite !strip_idempotent.
Qed.

(** ** Deduplicator, continued *)

(** A list of cleaned, valid entities with pairwise distinct keys, none of
    them seen, passes the loop unchanged. *)
Lemma dedup_loop_fixed (l : list Politician) :
  forall seen : gset pystr,
    (forall x, x ∈ l -> clean_fields x = x /\ valid x = true
                        /\ dedup_key x ∉ seen) ->
    NoDup (List.map dedup_key l) ->
    dedup_loop l seen [] = l.
Proof.
  induction l as [| x l IH]; intros seen Hall Hnodup; [reflexivity |].
  rewrite dedup_loop_cons.
  destruct (Hall x ltac:(left)) as (Hclean & Hvalid & Hfresh).
  rewrite Hclean, Hvalid, andb_true_r.
  rewrite (bool_decide_eq_false_2 _ Hfresh). cbn [negb].
  apply NoDup_cons in Hnodup as [Hx Hnodup].
  f_equal. apply IH; [| exact Hnodup].
  intros y Hy. destruct (Hall y ltac:(by right)) as (Hc & Hv & Hf).
  repeat split; try assumption.
  intros Hin. apply elem_of_union in Hin as [Hin | Hin]; [| by apply Hf].
  apply elem_of_singleton in Hin. apply Hx. rewrite <- Hin.
  apply list_elem_of_fmap. by exists y.
Qed.

(** X7. Deduplicating an already deduplicated list changes nothing. *)
Theorem dedup_idempotent (l : list Politician) :
  _clean_and_deduplicate (_clean_and_deduplicate l) = _clean_and_deduplicate l.
Proof.
  unfold _clean_and_deduplicate at 1.
  apply dedup_loop_fixed; [| apply dedup_loop_NoDup].
  intros x Hx. unfold _clean_and_deduplicate in Hx.
  apply dedup_loop_origin in Hx as (l1 & e & l2 & _ & -> & Hv & _).
  split; [apply clean_fields_idempotent |].
  split; [exact Hv | set_solver].
Qed.

Lemma dedup_loop_sublist (l : list Politician) :
  forall seen : gset pystr,
    sublist (dedup_loop l seen []) (List.map clean_fields l).
Proof.
  induction l as [| e l IH]; intros seen; [constructor |].
  rewrite dedup_loop_cons. cbn [List.map].
  destruct (_ && _); [apply sublist_skip | apply sublist_cons]; apply IH.
Qed.

(** X8. The output is the cleaned input with some entities left out: the
    order of the survivors is the order of the input, nothing is added, and
    an empty input gives an empty output. *)
Theorem dedup_order_preserved (l : list Politician) :
  sublist (_clean_and_deduplicate l) (List.map clean_fields l)
  /\ (length (_clean_and_deduplicate l) <= length l)%nat
  /\ _clean_and_deduplicate [] = [].
Proof.
  pose proof (dedup_loop_sublist l ∅) as Hsub.
  split; [exact Hsub |]. split; [| reflexivity].
  apply sublist_length in Hsub. by rewrite length_map in Hsub.
Qed.

(** X9. The key does not record where the first name ends: moving a word
    from the end of the first name to the front of the last name gives the
    same key, so two such entities count as duplicates. *)
Theorem dedup_key_boundary_collision (p q : Politician) (a b c : pystr) :
  first_name p = Some (a ++ [SPACE] ++ b) -> last_name p = Some c ->
  first_name q = Some a -> last_name q = Some (b ++ [SPACE] ++ c) ->
  dedup_key p = dedup_key q
  /\ dedup_key p
     = replace SPACE UNDERSCORE (lower a) ++ [UNDERSCORE]
       ++ replace SPACE UNDERSCORE (lower b) ++ [UNDERSCORE]
       ++ replace SPACE UNDERSCORE (lower c).
Proof.
  intros Hpf Hpl Hqf Hql. unfold dedup_key.
  rewrite Hpf, Hpl, Hqf, Hql. cbn [get].
  rewrite !lower_app, !replace_app.
  change (replace SPACE UNDERSCORE (lower [SPACE])) with [UNDERSCORE].
  change (replace SPACE UNDERSCORE [UNDERSCORE]) with [UNDERSCORE].
  rewrite <- !app_assoc. split; reflexivity.
Qed.

Lemma dedup_key_boundary_collision_witness :
  dedup_key jean_luc_martin = dedup_key jean_lucmartin
  /\ _clean_and_deduplicate [jean_luc_martin; jean_lucmartin]
     = [clean_fields jean_luc_martin].
Proof.
  split.
  - apply (dedup_key_boundary_collision jean_luc_martin jean_lucmartin
             (py "Jean") (py "Luc") (py "Martin")); reflexivity.
  - vm_compute. reflexivity.
Defined.

(** X10. Every entity of the output has its four text fields present and
    trimmed: no leading and no trailing whitespace is left in name,
    first_name, last_name and party. *)
Theorem dedup_output_trimmed (l : list Politician) (x : Politician) :
  x ∈ _clean_and_deduplicate l ->
  exists n f s t,
    name x = Some n /\ first_name x = Some f
    /\ last_name x = Some s /\ party x = Some t
    /\ trimmed n /\ trimmed f /\ trimmed s /\ trimmed t
    /\ strip n = n /\ strip f = f /\ strip s = s /\ strip t = t.
Proof.
  intros Hx. unfold _clean_and_deduplicate in Hx.
  apply dedup_loop_origin in Hx as (l1 & e & l2 & _ & -> & _).
  eexists _, _, _, _. cbn [clean_fields name first_name last_name party].
  repeat split; try reflexivity;
    first [apply strip_trimmed | apply strip_idempotent].
Qed.

Lemma dedup_output_trimmed_witness :
  exists n, name (clean_fields jean_mayor) = Some n /\ strip n = n.
Proof.
  destruct (dedup_output_trimmed [jean_mayor] (clean_fields jean_mayor))
    as (n & f & s & t & Hn & _ & _ & _ & _ & _ & _ & _ & Hs & _).
  - vm_compute. left.
  - exists n. split; assumption.
Defined.

(** ** Batch persister, continued *)

Section PersisterEdges.
Context {Ext : Type} `{Outside Ext}.

(** X11. A batch size of 0 makes the persister raise [ValueError] (the
    [range] of the loop header) before anything is sent or logged; a
    negative batch size makes it return 0 without sending or logging
    anything, whatever the list. *)
Theorem degenerate_batch_size (politicians : list Politician)
    (batch_size : Z) (w : World Ext) :
  (batch_size <= 0)%Z ->
  insert_politicians_batch politicians batch_size w
  = (if (batch_size =? 0)%Z then Raise ValueError else Ok 0%Z, w).
Proof.
  intros Hb. unfold insert_politicians_batch, py_range.
  destruct (Z.eqb_spec batch_size 0) as [-> | Hne]; [reflexivity |].
  destruct (Z.ltb_spec 0 batch_size) as [? | _]; [lia |].
  destruct (Z.ltb_spec (Z.of_nat (length politicians)) 0) as [? | _]; [lia |].
  reflexivity.
Qed.

(** X12. On the empty list the persister returns 0 and sends nothing, for
    every batch size other than 0. *)
Theorem nothing_to_insert (batch_size : Z) (w : World Ext) :
  batch_size <> 0%Z ->
  insert_politicians_batch [] batch_size w = (Ok 0%Z, w).
Proof.
  intros Hb. unfold insert_politicians_batch, py_range. cbn [length Z.of_nat].
  destruct (Z.eqb_spec batch_size 0) as [? | _]; [contradiction |].
  destruct (0 <? batch_size)%Z; reflexivity.
Qed.

End PersisterEdges.

Lemma degenerate_batch_size_witness :
  insert_politicians_batch fifty (-1) (start table_with_p23)
  = (Ok 0%Z, start table_with_p23).
Proof.
  apply (degenerate_batch_size fifty (-1) (start table_with_p23)). lia.
Defined.

Lemma nothing_to_insert_witness :
  insert_politicians_batch [] 50 (start table_with_p23)
  = (Ok 0%Z, start table_with_p23).
Proof. apply (nothing_to_insert 50 (start table_with_p23)). lia. Defined.


Lemma py_range_positive (len : nat) (batch_size : Z) :
  (0 < batch_size)%Z ->
  py_range 0 (Z.of_nat len) batch_size
  = Ok (List.map (fun k => (Z.of_nat k * batch_size)%Z)
          (seq 0 (Z.to_nat ((Z.of_nat len + batch_size - 1) / batch_size)))).
Proof.
  intros Hb. unfold py_range.
  destruct (Z.eqb_spec batch_size 0) as [-> | _]; [lia |].
  destruct (Z.ltb_spec 0 batch_size) as [_ | ?]; [| lia].
  destruct (Z.ltb_spec 0 (Z.of_nat len)) as [Hpos | Hz].
  - replace (Z.of_nat len - 0 + batch_size - 1)%Z
      with (Z.of_nat len + batch_size - 1)%Z by lia.
    reflexivity.
  - replace (Z.of_nat len) with 0%Z by lia.
    rewrite Z.div_small by lia. reflexivity.
Qed.

(** X13. For a positive batch size the loop makes ceil(len / batch_size)
    batches; the k-th starts at index k * batch_size and holds the next
    batch_size records; no batch is empty or longer than batch_size, and
    every batch but the last is full. *)
Theorem batches_shape (politicians : list Politician) (batch_size : Z) :
  (0 < batch_size)%Z ->
  length (batches politicians batch_size)
  = Z.to_nat ((Z.of_nat (length politicians) + batch_size - 1) / batch_size)
  /\ forall (k : nat) (b : Z * list Politician),
       batches politicians batch_size !! k = Some b ->
       fst b = (Z.of_nat k * batch_size)%Z
       /\ snd b = firstn (Z.to_nat batch_size)
                    (skipn (k * Z.to_nat batch_size) politicians)
       /\ (0 < length (snd b) <= Z.to_nat batch_size)%nat
       /\ ((S k < length (batches politicians batch_size))%nat ->
           length (snd b) = Z.to_nat batch_size).
Proof.
  intros Hb. unfold batches. rewrite (py_range_positive _ _ Hb).
  set (len := length politicians).
  set (q := ((Z.of_nat len + batch_size - 1) / batch_size)%Z).
  assert (Hq : (batch_size * q <= Z.of_nat len + batch_size - 1
                < batch_size * q + batch_size)%Z).
  { pose proof (Z.div_mod (Z.of_nat len + batch_size - 1) batch_size ltac:(lia)).
    pose proof (Z.mod_pos_bound (Z.of_nat len + batch_size - 1) batch_size Hb).
    subst q. lia. }
  assert (Hq0 : (0 <= q)%Z) by (subst q; apply Z.div_pos; lia).
  rewrite !length_map, length_seq. split; [reflexivity |].
  intros k b Hk.
  rewrite List.map_map in Hk.
  change (List.map ?f ?l) with (f <$> l) in Hk.
  rewrite list_lookup_fmap in Hk.
  destruct (seq 0 (Z.to_nat q) !! k) as [k' |] eqn:Hseq; [| discriminate].
  apply lookup_seq in Hseq as [-> Hlt]. cbn in Hk. injection Hk as <-.
  cbn [fst snd]. unfold slice.
  replace (Z.to_nat (Z.of_nat k * batch_size + batch_size
                     - Z.of_nat k * batch_size)) with (Z.to_nat batch_size) by lia.
  replace (Z.to_nat (Z.of_nat k * batch_size)) with (k * Z.to_nat batch_size)%nat
    by nia.
  split; [reflexivity |]. split; [reflexivity |].
  rewrite length_firstn, length_skipn. fold len.
  split; [nia |]. intros Hnext. nia.
Qed.

Lemma batches_shape_witness :
  length (batches fifty 20) = 3%nat
  /\ forall k b, batches fifty 20 !! k = Some b ->
                 (0 < length (snd b) <= 20)%nat.
Proof.
  destruct (batches_shape fifty 20 ltac:(lia)) as [Hlen Hall].
  split; [exact Hlen |].
  intros k b Hk. destruct (Hall k b Hk) as (_ & _ & Hbound & _). exact Hbound.
Defined.

Lemma length_concat_batches (bs : list (Z * list Politician)) :
  length (concat (List.map snd bs))
  = list_sum (List.map (fun b => length (snd b)) bs).
Proof.
  induction bs as [| b bs IH]; [reflexivity |].
  cbn [List.map concat list_sum]. by rewrite length_app, IH.
Qed.

Section PersisterExtremes.
Context {Ext : Type} `{Outside Ext}.

Lemma insert_one_batch_accepted (politicians : list Politician)
    (batch_size total i : Z) (w : World Ext) (x' : Ext) :
  insert_execute (Bulk (slice politicians i (i + batch_size))) (ext w)
  = (Ok tt, x') ->
  insert_one_batch politicians batch_size total i w
  = (Ok (total + Z.of_nat (length (slice politicians i (i + batch_size))))%Z,
     mkWorld x'
       (logs w ++ [(INFO, MsgBatchInserted (i / batch_size + 1)%Z
                            (length (slice politicians i (i + batch_size))))])
       (history w ++ [EvInsert (Bulk (slice politicians i (i + batch_size))) true])).
Proof.
  intros Hx. unfold insert_one_batch, bind, attempt, supabase_insert, log, ret.
  rewrite Hx. reflexivity.
Qed.

Lemma for_range_accepted (politicians : list Politician) (batch_size : Z)
    (indices : list Z) :
  (forall payload x, exists x', insert_execute payload x = (Ok tt, x')) ->
  forall (total : Z) (w : World Ext),
  let bs := List.map (fun i => (i, slice politicians i (i + batch_size))) indices in
  exists w',
    for_range (insert_one_batch politicians batch_size) indices total w
    = (Ok (total + Z.of_nat (list_sum (List.map (fun b => length (snd b)) bs)))%Z, w')
    /\ history w' = history w ++ bulk_events bs
    /\ logs w'
       = logs w
         ++ List.map (fun b => (INFO, MsgBatchInserted (fst b / batch_size + 1)%Z
                                        (length (snd b)))) bs.
Proof.
  intros Hacc. induction indices as [| i indices IH]; intros total w bs.
  - exists w. cbn. rewrite Z.add_0_r, !app_nil_r. auto.
  - destruct (Hacc (Bulk (slice politicians i (i + batch_size))) (ext w))
      as [x' Hx].
    cbn [for_range].
    rewrite (bind_ok _ _ _ _ _ (insert_one_batch_accepted _ _ total i w x' Hx)).
    match goal with |- context [for_range _ indices ?t ?w0] =>
      destruct (IH t w0) as (w' & Hrun & Hh & Hl) end.
    exists w'. rewrite Hrun. subst bs. unfold bulk_events in *.
    cbn [List.map list_sum fst snd] in *.
    rewrite Hh, Hl. cbn [history logs]. rewrite <- !app_assoc.
    split; [| split; reflexivity].
    unfold list_sum. cbn [fold_right]. do 2 f_equal. lia.
Qed.

(** X14. When the table accepts every call, the run makes exactly one bulk
    call per batch and nothing else, returns the number of submitted
    records, and logs no failed record. *)
Theorem all_accepted (politicians : list Politician) (batch_size : Z)
    (w : World Ext) :
  (0 < batch_size)%Z ->
  (forall payload x, exists x', insert_execute payload x = (Ok tt, x')) ->
  exists w' entries,
    insert_politicians_batch politicians batch_size w
    = (Ok (Z.of_nat (length politicians)), w')
    /\ history w' = history w ++ bulk_events (batches politicians batch_size)
    /\ logs w' = logs w ++ entries
    /\ failed_records entries = []
    /\ Forall (fun entry => fst entry = INFO) entries.
Proof.
  intros Hb Hacc.
  pose proof (batches_cover politicians batch_size Hb) as Hcover.
  apply (f_equal (@length _)) in Hcover. rewrite length_concat_batches in Hcover.
  unfold insert_politicians_batch, batches in *.
  rewrite (py_range_positive _ _ Hb) in *.
  unfold bind at 1. unfold lift.
  match goal with |- context [for_range _ ?idx _ _] =>
    destruct (for_range_accepted politicians batch_size idx Hacc 0%Z w)
      as (w' & Hrun & Hh & Hl) end.
  rewrite Hcover, Z.add_0_l in Hrun.
  exists w'. eexists. split; [exact Hrun |]. split; [exact Hh |].
  split; [exact Hl |].
  match goal with |- context [List.map ?f ?l] =>
    generalize l; intros bs; induction bs as [| b bs [IH1 IH2]] end;
    [split; [reflexivity | constructor] |].
  cbn [List.map failed_records]. split; [exact IH1 |].
  constructor; [reflexivity | exact IH2].
Qed.

Lemma insert_each_rejected (batch : list Politician) :
  (forall payload x, exists e x', insert_execute payload x = (Raise e, x')) ->
  forall (total : Z) (w : World Ext),
  exists w' entries,
    insert_each batch total w = (Ok total, w')
    /\ history w'
       = history w ++ List.map (fun p => EvInsert (Single p) false) batch
    /\ logs w' = logs w ++ entries
    /\ failed_records entries
       = List.map (fun p => get (name p) (py "Unknown")) batch.
Proof.
  intros Hrej. induction batch as [| p batch IH]; intros total w.
  - exists w, []. cbn. rewrite !app_nil_r. auto.
  - destruct (Hrej (Single p) (ext w)) as (e & x' & Hx).
    assert (Hstep : insert_each (p :: batch) total w
                    = insert_each batch total
                        (mkWorld x'
                           (logs w ++ [(ERROR, MsgRecordError
                                                 (get (name p) (py "Unknown")) e)])
                           (history w ++ [EvInsert (Single p) false]))).
    { cbn [insert_each]. unfold bind, attempt, supabase_insert, log.
      rewrite Hx. reflexivity. }
    rewrite Hstep.
    match goal with |- context [insert_each batch ?t ?w0] =>
      destruct (IH t w0) as (w' & entries & Hrun & Hh & Hl & Hf) end.
    exists w', ((ERROR, MsgRecordError (get (name p) (py "Unknown")) e) :: entries).
    rewrite Hrun, Hh, Hl. cbn [history logs List.map failed_records].
    rewrite <- !app_assoc, Hf. auto.
Qed.

Lemma for_range_rejected (politicians : list Politician) (batch_size : Z)
    (indices : list Z) :
  (forall payload x, exists e x', insert_execute payload x = (Raise e, x')) ->
  forall (total : Z) (w : World Ext),
  let bs := List.map (fun i => (i, slice politicians i (i + batch_size))) indices in
  exists w' entries,
    for_range (insert_one_batch politicians batch_size) indices total w
    = (Ok total, w')
    /\ history w' = history w ++ rejected_events bs
    /\ logs w' = logs w ++ entries
    /\ failed_records entries
       = List.map (fun p => get (name p) (py "Unknown"))
           (concat (List.map snd bs)).
Proof.
  intros Hrej. induction indices as [| i indices IH]; intros total w bs.
  - exists w, []. cbn. rewrite !app_nil_r. auto.
  - destruct (Hrej (Bulk (slice politicians i (i + batch_size))) (ext w))
      as (e & x' & Hx).
    set (w0 := mkWorld x'
                 (logs w ++ [(ERROR, MsgBatchError (i / batch_size + 1)%Z e)])
                 (history w ++ [EvInsert (Bulk (slice politicians i (i + batch_size)))
                                  false])).
    assert (Hstep : insert_one_batch politicians batch_size total i w
                    = insert_each (slice politicians i (i + batch_size)) total w0).
    { unfold insert_one_batch, bind, attempt, supabase_insert, log.
      rewrite Hx. reflexivity. }
    destruct (insert_each_rejected (slice politicians i (i + batch_size))
                Hrej total w0) as (w1 & e1 & Hrun1 & Hh1 & Hl1 & Hf1).
    rewrite Hrun1 in Hstep.
    cbn [for_range]. rewrite (bind_ok _ _ _ _ _ Hstep).
    destruct (IH total w1) as (w' & e2 & Hrun & Hh & Hl & Hf).
    exists w', ((ERROR, MsgBatchError (i / batch_size + 1)%Z e) :: e1 ++ e2).
    rewrite Hrun. subst bs w0.
    cbn [List.map concat rejected_events flat_map fst snd history logs] in *.
    fold (rejected_events
            (List.map (fun i => (i, slice politicians i (i + batch_size))) indices)).
    rewrite Hh, Hl, Hh1, Hl1. cbn [failed_records].
    rewrite map_app, failed_records_app, Hf1, Hf, <- !app_assoc.
    auto.
Qed.

(** X15. When the table rejects every call, the run still walks through
    every batch and every record: it returns 0, each bulk call is followed
    by one call per record, and the failed records named in the log are the
    submitted records, each once, in their order. *)
Theorem all_rejected (politicians : list Politician) (batch_size : Z)
    (w : World Ext) :
  (0 < batch_size)%Z ->
  (forall payload x, exists e x', insert_execute payload x = (Raise e, x')) ->
  exists w' entries,
    insert_politicians_batch politicians batch_size w = (Ok 0%Z, w')
    /\ history w'
       = history w ++ rejected_events (batches politicians batch_size)
    /\ logs w' = logs w ++ entries
    /\ failed_records entries
       = List.map (fun p => get (name p) (py "Unknown")) politicians.
Proof.
  intros Hb Hrej.
  pose proof (batches_cover politicians batch_size Hb) as Hcover.
  unfold insert_politicians_batch, batches in *.
  rewrite (py_range_positive _ _ Hb) in *.
  unfold bind at 1. unfold lift.
  match goal with |- context [for_range _ ?idx _ _] =>
    destruct (for_range_rejected politicians batch_size idx Hrej 0%Z w)
      as (w' & entries & Hrun & Hh & Hl & Hf) end.
  rewrite Hcover in Hf. exists w', entries. auto.
Qed.

End PersisterExtremes.

Lemma all_accepted_witness :
  exists w',
    insert_politicians_batch fifty 20 (mkWorld accept_all [] [])
    = (Ok 50%Z, w')
    /\ length (history w') = 3%nat.
Proof.
  destruct (all_accepted fifty 20 (mkWorld accept_all [] []) ltac:(lia))
    as (w' & entries & Hrun & Hh & _).
  - intros payload x. exists x. reflexivity.
  - exists w'. split; [exact Hrun |]. rewrite Hh. reflexivity.
Defined.

Lemma all_rejected_witness :
  exists w',
    insert_politicians_batch fifty 20 (mkWorld reject_all [] [])
    = (Ok 0%Z, w')
    /\ length (failed_records (logs w')) = 50%nat.
Proof.
  destruct (all_rejected fifty 20 (mkWorld reject_all [] []) ltac:(lia))
    as (w' & entries & Hrun & _ & Hl & Hf).
  - intros payload x. exists (External 23505), x. reflexivity.
  - exists w'. split; [exact Hrun |]. rewrite Hl. cbn [logs app].
    rewrite Hf. reflexivity.
Defined.

(** ** Deputies *)

Lemma deputy_of_acteur_raises (a : Acteur) (e : exn) :
  deputy_of_acteur a = Raise e <-> e = IndexError /\ mandat a = Some [].
Proof.
  unfold deputy_of_acteur.
  destruct (mandat a) as [[| m ms] |]; cbn [get].
  - split; [intros [= <-]; auto | intros [-> _]; reflexivity].
  - split; [discriminate | intros [_ Hm]; discriminate].
  - split; [discriminate | intros [_ Hm]; discriminate].
Qed.

Lemma for_each_deputies_raise (acteurs : list Acteur) (a : Acteur) :
  In a acteurs -> mandat a = Some [] ->
  for_each deputy_of_acteur acteurs = Raise IndexError.
Proof.
  intros Hin Hbad. induction acteurs as [| a0 acteurs IH]; [destruct Hin |].
  cbn [for_each].
  destruct (deputy_of_acteur a0) as [p |e] eqn:Ha0.
  - destruct Hin as [-> | Hin].
    + assert (Hr : deputy_of_acteur a = Raise IndexError)
        by (apply deputy_of_acteur_raises; auto).
      congruence.
    + by rewrite (IH Hin).
  - apply deputy_of_acteur_raises in Ha0 as [-> _]. reflexivity.
Qed.

(** X16. A deputy is built with position "Député" and score 100; only the
    first mandate is read for the party; a deputy built from a record
    without the [mandats] key has the party "Non inscrit" and the
    orientation [center]; and a record whose list of mandates is empty makes
    the construction raise [IndexError]. *)
Theorem deputy_of_acteur_fields (a : Acteur) :
  (forall p, deputy_of_acteur a = Ok p ->
     position p = py "Député"
     /\ credibility_score p = Some 100%Z
     /\ name p = Some (strip (get (prenom a) [] ++ [SPACE] ++ get (nom a) []))
     /\ first_name p = Some (get (prenom a) [])
     /\ last_name p = Some (get (nom a) []))
  /\ (forall m ms p, mandat a = Some (m :: ms) -> deputy_of_acteur a = Ok p ->
        party p = Some (_extract_party_from_mandate m)
        /\ political_orientation p
           = Some (_determine_orientation (_extract_party_from_mandate m)))
  /\ (forall p, mandat a = None -> deputy_of_acteur a = Ok p ->
        party p = Some (py "Non inscrit")
        /\ political_orientation p = Some (py "center"))
  /\ (mandat a = Some [] -> deputy_of_acteur a = Raise IndexError).
Proof.
  split.
  { intros p. unfold deputy_of_acteur.
    destruct (get (mandat a) _) as [| m ms]; [discriminate |].
    intros [= <-]. repeat split. }
  split.
  { intros m ms p Hm. unfold deputy_of_acteur. rewrite Hm. cbn [get].
    intros [= <-]. split; reflexivity. }
  split.
  { intros p Hnone. unfold deputy_of_acteur. rewrite Hnone. cbn [get].
    intros [= <-]. split; reflexivity. }
  intros Hempty. unfold deputy_of_acteur. rewrite Hempty. reflexivity.
Qed.

Lemma deputy_of_acteur_fields_witness :
  deputy_of_acteur (mkActeur (Some (py "Jean")) (Some (py "Dupont")) (Some []))
  = Raise IndexError.
Proof.
  destruct (deputy_of_acteur_fields
              (mkActeur (Some (py "Jean")) (Some (py "Dupont")) (Some [])))
    as (_ & _ & _ & Hempty).
  apply Hempty. reflexivity.
Defined.

Section Deputies.
Context {Ext : Type} `{Outside Ext}.

Lemma urls_to_try_head : urls_to_try = first_url :: List.tl urls_to_try.
Proof. vm_compute. reflexivity. Qed.

(** [fetch_deputes] when the first URL answers. *)
Lemma fetch_deputes_first_answer (w : World Ext) (data : Json) (x : Ext) :
  requests_get_json first_url (ext w) = (Ok data, x) ->
  let w1 := mkWorld x
              (logs w ++ [(INFO, MsgDeputesStart); (INFO, MsgUrlOk first_url)])
              (history w ++ [EvGet first_url]) in
  fetch_deputes w =
    match data with
    | JFalsy => (Ok [], logged ERROR (MsgDeputesFailed NoDeputesUrl) w1)
    | JDocument acteurs =>
        match for_each deputy_of_acteur acteurs with
        | Ok deputies =>
            (Ok deputies, logged INFO (MsgDeputesCount (length deputies)) w1)
        | Raise e => (Ok [], logged ERROR (MsgDeputesFailed e) w1)
        end
    end.
Proof.
  intros Hx w1.
  unfold fetch_deputes, fetch_deputes_try. rewrite urls_to_try_head.
  cbn [try_urls].
  unfold bind, attempt, http_get_json, log, ret, raise, lift, logged.
  cbn [ext logs history]. rewrite Hx. subst w1.
  destruct data as [| acteurs]; cbn [ext logs history].
  - rewrite <- !app_assoc. reflexivity.
  - destruct (for_each deputy_of_acteur acteurs);
      cbn [ext logs history]; rewrite <- !app_assoc; reflexivity.
Qed.

(** X17. One record with an empty list of mandates costs the whole source:
    when the answering document holds such an [acteur], [fetch_deputes]
    returns the empty list, with the [IndexError] in its error line, however
    many good records the document holds. *)
Theorem one_bad_acteur_empties_deputies (w : World Ext) (acteurs : list Acteur)
    (a : Acteur) (x : Ext) :
  requests_get_json first_url (ext w) = (Ok (JDocument acteurs), x) ->
  In a acteurs -> mandat a = Some [] ->
  fetch_deputes w
  = (Ok [],
     mkWorld x
       (logs w ++ [(INFO, MsgDeputesStart); (INFO, MsgUrlOk first_url);
                   (ERROR, MsgDeputesFailed IndexError)])
       (history w ++ [EvGet first_url])).
Proof.
  intros Hx Hin Hbad.
  rewrite (fetch_deputes_first_answer w _ x Hx).
  rewrite (for_each_deputies_raise acteurs a Hin Hbad).
  unfold logged. cbn [ext logs history]. rewrite <- app_assoc. reflexivity.
Qed.

(** X18. The first URL that answers decides: when it answers with an empty
    document, [fetch_deputes] returns the empty list after that single
    request, without trying the URLs that follow. *)
Theorem falsy_answer_stops_the_search (w : World Ext) (x : Ext) :
  requests_get_json first_url (ext w) = (Ok JFalsy, x) ->
  fetch_deputes w
  = (Ok [],
     mkWorld x
       (logs w ++ [(INFO, MsgDeputesStart); (INFO, MsgUrlOk first_url);
                   (ERROR, MsgDeputesFailed NoDeputesUrl)])
       (history w ++ [EvGet first_url])).
Proof.
  intros Hx. rewrite (fetch_deputes_first_answer w _ x Hx).
  unfold logged. cbn [ext logs history]. rewrite <- app_assoc. reflexivity.
Qed.

End Deputies.

Lemma one_bad_acteur_empties_deputies_witness :
  fst (fetch_deputes (start sim_bad_acteur)) = Ok []
  /\ for_each deputy_of_acteur [acteur_jean] <> Ok [].
Proof.
  split.
  - rewrite (one_bad_acteur_empties_deputies (start sim_bad_acteur)
               [acteur_jean; acteur_no_mandate] acteur_no_mandate sim_bad_acteur).
    + reflexivity.
    + vm_compute. reflexivity.
    + right. left. reflexivity.
    + reflexivity.
  - vm_compute. discriminate.
Defined.

Lemma falsy_answer_stops_the_search_witness :
  fst (fetch_deputes (start sim_falsy_first)) = Ok []
  /\ history (snd (fetch_deputes (start sim_falsy_first))) = [EvGet first_url].
Proof.
  rewrite (falsy_answer_stops_the_search (start sim_falsy_first) sim_falsy_first).
  - split; reflexivity.
  - vm_compute. reflexivity.
Defined.

(** ** Entry point, continued *)

Lemma ministers_valid :
  forallb (fun m => valid (clean_fields (_assign_visual_elements m))) ministres
  = true.
Proof. vm_compute. reflexivity. Qed.

Lemma minister_keys_NoDup : NoDup minister_keys.
Proof.
  apply (bool_decide_eq_true_1 (NoDup minister_keys)).
  vm_compute. reflexivity.
Qed.

(** Whatever the other sources bring, the keys of the nine ministers are
    among the keys of the deduplicated list. *)
Lemma dedup_covers_ministers (d s y : list Politician) (k : pystr) :
  k ∈ minister_keys ->
  k ∈ List.map dedup_key
        (_clean_and_deduplicate
           (d ++ s ++ List.map _assign_visual_elements ministres ++ y)).
Proof.
  intros Hk. unfold minister_keys in Hk.
  apply list_elem_of_fmap in Hk as (m & -> & Hm).
  pose proof ministers_valid as Hvalid. rewrite forallb_forall in Hvalid.
  specialize (Hvalid m ltac:(by apply list_elem_of_In)).
  remember (_assign_visual_elements m) as sm eqn:Hsm.
  assert (Hin : sm ∈ d ++ s ++ List.map _assign_visual_elements ministres ++ y).
  { apply elem_of_app. right. apply elem_of_app. right. apply elem_of_app. left.
    rewrite Hsm. apply list_elem_of_fmap. exists m. split; [reflexivity | exact Hm]. }
  remember (d ++ s ++ List.map _assign_visual_elements ministres ++ y) as all_.
  pose proof (dedup_loop_covers all_ ∅ sm Hin Hvalid) as Hcov.
  apply elem_of_union in Hcov as [Hcov | Hcov];
    [| by apply not_elem_of_empty in Hcov].
  unfold keys_of in Hcov. by apply elem_of_list_to_set in Hcov.
Qed.

Lemma dedup_at_least_nine (d s y : list Politician) :
  (9 <= length (_clean_and_deduplicate
                  (d ++ s ++ List.map _assign_visual_elements ministres ++ y)))%nat.
Proof.
  pose proof (NoDup_submseteq _ _ minister_keys_NoDup
                (dedup_covers_ministers d s y)) as Hsub.
  apply submseteq_length in Hsub. rewrite length_map in Hsub. exact Hsub.
Qed.

Section EntryPoint.
Context {Ext : Type} `{Outside Ext}.

Lemma try_urls_events (urls : list pystr) :
  forall w : World Ext,
  exists data w' tried rest,
    try_urls urls w = (Ok data, w')
    /\ urls = tried ++ rest
    /\ (urls <> [] -> tried <> [])
    /\ history w' = history w ++ List.map EvGet tried.
Proof.
  induction urls as [| url urls IH]; intros w.
  - exists None, w, [], []. cbn. rewrite app_nil_r. auto.
  - cbn [try_urls]. unfold bind at 1. unfold attempt, http_get_json.
    destruct (requests_get_json url (ext w)) as [[data | e] x].
    + eexists _, _, [url], urls. unfold bind, log, ret.
      cbn [ext logs history List.map].
      split; [reflexivity |]. split; [reflexivity |].
      split; [intros _; discriminate | reflexivity].
    + unfold bind at 1. unfold log at 1. cbn [ext logs history].
      match goal with |- context [try_urls urls ?w0] =>
        destruct (IH w0) as (data & w' & tried & rest & Hrun & Hsplit & _ & Hh) end.
      exists data, w', (url :: tried), rest.
      rewrite Hrun, Hh, Hsplit. cbn [history List.map app].
      rewrite <- app_assoc.
      split; [reflexivity |]. split; [reflexivity |].
      split; [intros _; discriminate | reflexivity].
Qed.

Lemma fetch_deputes_events (w : World Ext) :
  exists l w' tried,
    fetch_deputes w = (Ok l, w')
    /\ initial_segment tried urls_to_try
    /\ history w' = history w ++ List.map EvGet tried.
Proof.
  unfold fetch_deputes, fetch_deputes_try.
  rewrite (bind_ok _ _ _ _ _ (log_run INFO MsgDeputesStart w)).
  unfold bind at 1. unfold attempt. unfold bind at 1.
  destruct (try_urls_events urls_to_try (logged INFO MsgDeputesStart w))
    as (data & w1 & tried & rest & -> & Hsplit & Hne & Hh).
  assert (Hseg : initial_segment tried urls_to_try).
  { split; [apply Hne; rewrite urls_to_try_head; discriminate | by exists rest]. }
  cbn [logged history] in Hh.
  destruct data as [[| acteurs] |].
  - eexists _, _, tried. unfold raise, bind, log, ret. cbn [ext logs history].
    split; [reflexivity |]. split; [exact Hseg | exact Hh].
  - unfold bind at 1. unfold lift.
    destruct (for_each deputy_of_acteur acteurs) as [deputies | e].
    + eexists _, _, tried. unfold bind, log, ret. cbn [ext logs history].
      split; [reflexivity |]. split; [exact Hseg | exact Hh].
    + eexists _, _, tried. unfold bind, log, ret. cbn [ext logs history].
      split; [reflexivity |]. split; [exact Hseg | exact Hh].
  - eexists _, _, tried. unfold raise, bind, log, ret. cbn [ext logs history].
    split; [reflexivity |]. split; [exact Hseg | exact Hh].
Qed.

Lemma fetch_senateurs_events (w : World Ext) :
  exists l w',
    fetch_senateurs w = (Ok l, w')
    /\ history w' = history w ++ [EvSenatorsCsv].
Proof.
  unfold fetch_senateurs, fetch_senateurs_try, bind, attempt, senators_csv,
    log, ret.
  cbn [ext logs history].
  destruct (read_senators_csv (ext w)) as [[df | e] x];
    eexists _, _; split; reflexivity.
Qed.

Lemma fetch_maires_events (w : World Ext) :
  exists l w',
    fetch_maires_principales_villes w = (Ok l, w')
    /\ history w' = history w ++ [EvMayorsCsv].
Proof.
  unfold fetch_maires_principales_villes, fetch_maires_try, bind, attempt,
    mayors_csv, log, ret.
  cbn [ext logs history].
  destruct (read_mayors_csv (ext w)) as [[df | e] x];
    eexists _, _; split; reflexivity.
Qed.

(** The entry point after its four adapters: the persister on the
    deduplicated list, which holds the ministers at least. *)
Lemma populate_database_persists (w : World Ext) :
  exists d s y w4 tried,
    let cleaned :=
      _clean_and_deduplicate
        (d ++ s ++ List.map _assign_visual_elements ministres ++ y) in
    let w5 := logged INFO (MsgTotalCleaned (length cleaned)) w4 in
    initial_segment tried urls_to_try
    /\ history w5
       = history w ++ List.map EvGet tried ++ [EvSenatorsCsv; EvMayorsCsv]
    /\ populate_database w
       = match insert_politicians_batch cleaned 50 w5 with
         | (Ok n, w6) => (Ok n, logged INFO (MsgDone n (length cleaned)) w6)
         | (Raise e, w6) => (Raise e, w6)
         end.
Proof.
  destruct (fetch_deputes_events (logged INFO MsgStart w))
    as (d & w1 & tried & Hd & Hseg & Hh1).
  destruct (fetch_senateurs_events w1) as (s & w2 & Hs & Hh2).
  pose proof (fetch_ministres_run w2) as Hm.
  remember (logged INFO
              (MsgMinistresCount
                 (length (List.map _assign_visual_elements ministres)))
              (logged INFO MsgMinistresStart w2)) as w3 eqn:Hw3.
  assert (Hh3 : history w3 = history w2) by (rewrite Hw3; reflexivity).
  destruct (fetch_maires_events w3) as (y & w4 & Hy & Hh4).
  exists d, s, y, w4, tried. cbv zeta.
  pose proof (dedup_at_least_nine d s y) as Hnine.
  remember (_clean_and_deduplicate
              (d ++ s ++ List.map _assign_visual_elements ministres ++ y))
    as cleaned eqn:Hcleaned.
  split; [exact Hseg |].
  split.
  { cbn [logged history]. rewrite Hh4, Hh3, Hh2, Hh1. cbn [logged history].
    rewrite <- !app_assoc. reflexivity. }
  unfold populate_database.
  rewrite (bind_ok _ _ _ _ _ (log_run INFO MsgStart w)).
  rewrite (bind_ok _ _ _ _ _ Hd), (bind_ok _ _ _ _ _ Hs),
    (bind_ok _ _ _ _ _ Hm), (bind_ok _ _ _ _ _ Hy).
  cbv zeta. rewrite <- Hcleaned.
  rewrite (bind_ok _ _ _ _ _ (log_run INFO (MsgTotalCleaned (length cleaned)) w4)).
  clear Hcleaned. destruct cleaned as [| p cleaned']; [cbn in Hnine; lia |].
  unfold bind at 1.
  destruct (insert_politicians_batch (p :: cleaned') 50 _) as [[n | e] w6];
    reflexivity.
Qed.

End EntryPoint.


Section EntryPointClaims.
Context {Ext : Type} `{Outside Ext}.

(** X19. The nine built-in ministers keep the "nothing to insert" branch
    of [populate_database] from being the one that returns: whenever a run
    returns, the deduplicated list held at least nine entities, the key of
    every minister among them, and the value returned is the count of the
    persister on that list. *)
Theorem returning_runs_persist_the_ministers (w : World Ext) (n : Z)
    (w' : World Ext) :
  populate_database w = (Ok n, w') ->
  exists d s y w5 w6,
    let cleaned :=
      _clean_and_deduplicate
        (d ++ s ++ List.map _assign_visual_elements ministres ++ y) in
    (9 <= length cleaned)%nat
    /\ (forall k, k ∈ minister_keys -> k ∈ List.map dedup_key cleaned)
    /\ insert_politicians_batch cleaned 50 w5 = (Ok n, w6)
    /\ w' = logged INFO (MsgDone n (length cleaned)) w6.
Proof.
  intros Hreturns.
  destruct (populate_database_persists w)
    as (d & s & y & w4 & tried & _ & _ & Hrun).
  cbv zeta in Hrun.
  pose proof (dedup_at_least_nine d s y) as Hnine.
  pose proof (dedup_covers_ministers d s y) as Hcov.
  remember (_clean_and_deduplicate
              (d ++ s ++ List.map _assign_visual_elements ministres ++ y))
    as cleaned eqn:Hcleaned.
  rewrite Hreturns in Hrun.
  destruct (insert_politicians_batch cleaned 50
              (logged INFO (MsgTotalCleaned (length cleaned)) w4))
    as [[n0 | e] w6] eqn:Hins; [| discriminate].
  injection Hrun as -> ->.
  exists d, s, y, (logged INFO (MsgTotalCleaned (length cleaned)) w4), w6.
  cbv zeta. rewrite <- Hcleaned.
  split; [exact Hnine |]. split; [exact Hcov |].
  split; [exact Hins | reflexivity].
Qed.



End EntryPointClaims.

Lemma returning_runs_persist_the_ministers_witness :
  exists w',
    populate_database (start sim_no_source) = (Ok 9%Z, w')
    /\ exists d s y w5 w6,
         let cleaned :=
           _clean_and_deduplicate
             (d ++ s ++ List.map _assign_visual_elements ministres ++ y) in
         (9 <= length cleaned)%nat
         /\ (forall k, k ∈ minister_keys -> k ∈ List.map dedup_key cleaned)
         /\ insert_politicians_batch cleaned 50 w5 = (Ok 9%Z, w6)
         /\ w' = logged INFO (MsgDone 9 (length cleaned)) w6.
Proof.
  assert (Hrun : exists w',
             populate_database (start sim_no_source) = (Ok 9%Z, w'))
    by (eexists; vm_compute; reflexivity).
  destruct Hrun as [w' Hrun]. exists w'. split; [exact Hrun |].
  exact (returning_runs_persist_the_ministers _ _ _ Hrun).
Defined.



(** ** Records without a name *)

Lemma nameless_is_invalid (e : Politician) :
  first_name e = Some [] -> last_name e = Some [] ->
  valid (clean_fields e) = false.
Proof.
  intros Hf Hl. apply valid_false_iff. right. right.
  apply dedup_key_degenerate. rewrite Hf, Hl. split; reflexivity.
Qed.

(** X22. A record that lacks both name parts is built into an entity by its
    adapter but never survives deduplication: for a deputy without [prenom]
    and [nom], a senator without 'Prénom', 'Nom usage' and 'Nom', and a
    mayor without 'Prénom' and 'Nom', the output is what it would be
    without the entity. *)
Theorem nameless_records_are_dropped (a : Acteur) (srow : SenatorRow)
    (mrow : MayorRow) (l1 l2 : list Politician) :
  (prenom a = None -> nom a = None ->
   forall p, deputy_of_acteur a = Ok p ->
     _clean_and_deduplicate (l1 ++ p :: l2) = _clean_and_deduplicate (l1 ++ l2))
  /\ (sen_prenom srow = None -> sen_nom_usage srow = None ->
      sen_nom srow = None ->
      _clean_and_deduplicate (l1 ++ senator_of_row srow :: l2)
      = _clean_and_deduplicate (l1 ++ l2))
  /\ (may_prenom mrow = None -> may_nom mrow = None ->
      _clean_and_deduplicate (l1 ++ mayor_of_row mrow :: l2)
      = _clean_and_deduplicate (l1 ++ l2)).
Proof.
  unfold _clean_and_deduplicate.
  split; [| split].
  - intros Hp Hn p Hdep. apply dedup_loop_skip. left.
    unfold deputy_of_acteur in Hdep. rewrite Hp, Hn in Hdep.
    destruct (get (mandat a) _) as [| m ms]; [discriminate |].
    injection Hdep as <-. by apply nameless_is_invalid.
  - intros Hp Hu Hn. apply dedup_loop_skip. left.
    unfold senator_of_row. rewrite Hp, Hu, Hn. cbn [get truthy].
    apply nameless_is_invalid; rewrite styled_unfold; reflexivity.
  - intros Hp Hn. apply dedup_loop_skip. left.
    unfold mayor_of_row. rewrite Hp, Hn. cbn [get].
    apply nameless_is_invalid; rewrite styled_unfold; reflexivity.
Qed.

Lemma nameless_records_are_dropped_witness :
  _clean_and_deduplicate
    [jean_senator; senator_of_row (mkSenatorRow None None None None true); marine]
  = _clean_and_deduplicate [jean_senator; marine].
Proof.
  destruct (nameless_records_are_dropped
              (mkActeur None None None)
              (mkSenatorRow None None None None true)
              (mkMayorRow None None None None)
              [jean_senator] [marine]) as (_ & Hsen & _).
  apply Hsen; reflexivity.
Defined.

(** ** Avatar and classifier tables *)

(** X23. The styler always sets [avatar_url]: to the image registered for
    the lowercase, trimmed full name when there is one, and to [None] for
    every other name. *)
Theorem avatar_lookup (p : Politician) :
  let full_name :=
    strip (lower (get (first_name p) [] ++ [SPACE] ++ get (last_name p) [])) in
  exists a,
    avatar_url (_assign_visual_elements p) = Some a
    /\ (In (full_name, a) avatar_mapping
        \/ (a = None /\ ~ In full_name (List.map fst avatar_mapping)))
    /\ (~ In full_name (List.map fst avatar_mapping) -> a = None).
Proof.
  intros full_name. rewrite styled_unfold. cbn [avatar_url]. fold full_name.
  eexists. split; [reflexivity |].
  destruct (dict_get_range avatar_mapping full_name None) as [[Hd Hn] | Hin].
  - split; [right; split; assumption | intros _; exact Hd].
  - split; [left; exact Hin |].
    intros Hn. destruct Hn. apply in_map_iff.
    exists (full_name, dict_get avatar_mapping full_name None). by split.
Qed.

Lemma avatar_lookup_witness :
  avatar_url (_assign_visual_elements (nth 1 ministres unscored))
  = Some (Some (py "/images/borne.png"))
  /\ avatar_url (_assign_visual_elements unscored) = Some None.
Proof.
  split; [vm_compute; reflexivity |].
  destruct (avatar_lookup unscored) as (a & Ha & _ & Hnone).
  rewrite Ha. f_equal. apply Hnone.
  vm_compute. intros Hin.
  repeat destruct Hin as [Hin | Hin]; try discriminate. destruct Hin.
Defined.

Lemma first_match_none {V} (table : list (pystr * V)) (s : pystr) :
  (forall key, In key (List.map fst table) -> contains s key = false) ->
  first_match table s = None.
Proof.
  induction table as [| [k v] table IH]; intros Hall; [reflexivity |].
  cbn [first_match]. rewrite (Hall k ltac:(by left)).
  apply IH. intros key Hkey. apply Hall. by right.
Qed.

(** X24. The classifier answers [center] for the empty label and for every
    label whose lowercase form contains none of the ten keywords; the first
    keyword of the table wins over all others: a label containing
    "la france insoumise" is [left] whatever else it contains. *)
Theorem orientation_default_and_priority (party_ : pystr) :
  (party_ = [] -> _determine_orientation party_ = py "center")
  /\ ((forall key, In key (List.map fst orientations) ->
                   contains (lower party_) key = false) ->
      _determine_orientation party_ = py "center")
  /\ (contains (lower party_) (py "la france insoumise") = true ->
      _determine_orientation party_ = py "left").
Proof.
  split; [intros ->; reflexivity |]. split.
  - intros Hnone. unfold _determine_orientation.
    destruct (negb (truthy party_)); [reflexivity |].
    by rewrite (first_match_none _ _ Hnone).
  - intros Hlfi. unfold _determine_orientation.
    destruct party_ as [| c rest]; [discriminate |].
    cbn [truthy negb]. unfold orientations. cbn [first_match].
    by rewrite Hlfi.
Qed.

Lemma orientation_default_and_priority_witness :
  _determine_orientation (py "La France Insoumise - Renaissance") = py "left"
  /\ _determine_orientation (py "Divers gauche") = py "center".
Proof.
  destruct (orientation_default_and_priority
              (py "La France Insoumise - Renaissance")) as (_ & _ & Hlfi).
  destruct (orientation_default_and_priority (py "Divers gauche"))
    as (_ & Hnone & _).
  split; [apply Hlfi; vm_compute; reflexivity |].
  apply Hnone. intros key Hkey.
  cbn [In List.map orientations fst] in Hkey.
  repeat destruct Hkey as [<- | Hkey]; try (vm_compute; reflexivity).
  destruct Hkey.
Defined.

(** ** Text fields that are not strings *)

Lemma clean_fetched_of (p : Politician) :
  clean_fetched (fetched_of p) = Has (clean_fields p).
Proof.
  unfold clean_fetched, fetched_of, clean_fields. cbn [fetched_name
    fetched_first_name fetched_last_name fetched_party other_keys].
  destruct (name p), (first_name p), (last_name p), (party p); reflexivity.
Qed.

Lemma dedup_loop_fetched_of (l : list Politician) (seen : gset pystr)
    (cleaned : list Politician) :
  dedup_loop_fetched (List.map fetched_of l) seen cleaned
  = Has (dedup_loop l seen cleaned).
Proof.
  revert seen cleaned. induction l as [| p l IH]; intros seen cleaned;
    [reflexivity |].
  cbn [List.map dedup_loop_fetched dedup_loop]. rewrite clean_fetched_of.
  cbv zeta. destruct (_ && _); apply IH.
Qed.

Lemma clean_fetched_raises (f : Fetched) :
  clean_fetched f = AttributeError <-> text_is_string f = false.
Proof.
  unfold clean_fetched, text_is_string.
  destruct (fetched_name f) as [[s1 | |] |],
    (fetched_first_name f) as [[s2 | |] |],
    (fetched_last_name f) as [[s3 | |] |],
    (fetched_party f) as [[s4 | |] |];
    cbn [get strip_value is_string andb]; split; congruence.
Qed.

Lemma dedup_loop_fetched_raises (l : list Fetched) (seen : gset pystr)
    (cleaned : list Politician) :
  dedup_loop_fetched l seen cleaned = AttributeError
  <-> exists f, In f l /\ text_is_string f = false.
Proof.
  revert seen cleaned. induction l as [| f l IH]; intros seen cleaned.
  - cbn [dedup_loop_fetched]. split; [discriminate | intros (f & [] & _)].
  - cbn [dedup_loop_fetched].
    destruct (clean_fetched f) as [p |] eqn:Hf.
    + assert (Hstr : text_is_string f = true).
      { destruct (text_is_string f) eqn:Hs; [reflexivity |].
        apply clean_fetched_raises in Hs. congruence. }
      cbv zeta. destruct (_ && _); rewrite IH;
        (split; [intros (f0 & Hin & Hs); exists f0; split; [by right | exact Hs]
                | intros (f0 & [<- | Hin] & Hs); [congruence | by exists f0]]).
    + split; [intros _ | reflexivity].
      exists f. split; [by left | by apply clean_fetched_raises].
Qed.

(** X25. [_clean_and_deduplicate] calls [.strip()] on the four text fields
    of every entity before any test.  On entities whose text fields are
    strings it is the deduplicator modelled above; it raises
    [AttributeError] exactly when one of these fields, in some entity of
    its input, is not a string; and [fetch_senateurs] builds such an
    entity, without raising, from an active row whose 'Prénom' cell is
    empty.  ([populate_database] calls the deduplicator outside every
    [try].) *)
Theorem non_string_field_raises :
  (forall l : list Politician,
      _clean_and_deduplicate_fetched (List.map fetched_of l)
      = Has (_clean_and_deduplicate l))
  /\ (forall l : list Fetched,
        _clean_and_deduplicate_fetched l = AttributeError
        <-> exists f, In f l /\ text_is_string f = false)
  /\ (exists f,
        senator_of_cells cells_no_first_name = Has f
        /\ fetched_name f = Some (PyString (py "nan Dupont"))
        /\ fetched_first_name f = Some PyNaN
        /\ forall before after,
             _clean_and_deduplicate_fetched (before ++ f :: after)
             = AttributeError).
Proof.
  split; [intros l; apply dedup_loop_fetched_of |].
  split; [intros l; apply dedup_loop_fetched_raises |].
  eexists. split; [reflexivity |].
  split; [vm_compute; reflexivity |]. split; [reflexivity |].
  intros before after. apply dedup_loop_fetched_raises.
  eexists. split; [apply in_elt | reflexivity].
Qed.
